(** * Affordability estimation engine of the Stats-Based Buyer Breakdown apps

    A shallow embedding of the estimation pipeline shared by the five
    Streamlit scripts [app.py], [app2.py] (regional breakdown) and
    [app3.py], [app4.py], [app5.py] (map / radius tools):

      down payment -> stress-test payment -> log-normal income model
      -> buyer counts and scenario comparison.

    Numbers.  The scripts compute with Python floats.  The embedding reads
    every float expression as the real number it denotes ([R]), and every
    Python [int] as an integer ([Z]) that is injected with [IZR] where the
    script mixes it into float arithmetic.  Rounding error is therefore not
    part of the model; the one place where the spec itself raises an
    exactness question (the literal 25000 against [500000 * 0.05]) is
    additionally settled on IEEE binary64 in [Module Binary64].

    Exceptions.  A Python exception ([ZeroDivisionError], [KeyError]) is
    the [None] of the option monad.  So is a result that is no real number
    (a [nan], a [complex]), although Python raises nothing there; the two
    places where this happens are marked at [Py.float_pow] and
    [App2.lognorm_pdf_with]. *)

From Stdlib Require Import PrimFloat.
From Stdlib Require FloatAxioms SpecFloat.
From Stdlib Require Import Reals Lra Lia ZArith.
From stdpp Require Import gmap strings.

Open Scope R_scope.
Set Warnings "-inexact-float".

(** ** Python float operations that can fail *)

Module Py.

(** [a / b] on floats: [ZeroDivisionError] when the divisor is zero. *)
Definition float_div (a b : R) : option R :=
  if Req_dec_T b 0 then None else Some (a / b).

(** [x ** y] with a float exponent.  A positive base gives the real power;
    a zero base gives [0.0], [1.0] or [ZeroDivisionError] by the sign of
    the exponent.  A negative base gives a float only for an integral
    exponent; for any other exponent Python raises nothing and returns a
    [complex], which is no real number: that [None] stands for a value
    outside the model, not for an exception.  Every statement below that
    reads [None] as a failure keeps the base non-negative. *)
Definition float_pow (x y : R) : option R :=
  if Rlt_dec 0 x then Some (Rpower x y)
  else if Req_dec_T x 0 then
    if Rlt_dec 0 y then Some 0
    else if Req_dec_T y 0 then Some 1
    else None
  else if Req_dec_T y (IZR (Int_part y)) then Some (powerRZ x (Int_part y))
  else None.

End Py.

(** ** Income distribution model

    [lognorm_cdf] is textually the same in all five scripts
    (app.py:30-33, app2.py:20-23, app3.py:30-33, app4.py:21-24,
    app5.py:21-24).  Its keyword parameters [mu=10.45], [sigma=0.95] are
    never overridden by a caller. *)

Module Income.

Definition mu_default : R := 10.45.
Definition sigma_default : R := 0.95.

Definition lognorm_cdf_with (x mu sigma : R) : R :=
  if Rle_dec x 0 then 0
  else
    let z := (ln x - mu) / sigma in
    0.5 * (1 + tanh (sqrt (2 / 3) * z)).

Definition lognorm_cdf (x : R) : R :=
  lognorm_cdf_with x mu_default sigma_default.

(** The expression [max(0, 1 - lognorm_cdf(income))] that every script
    writes inline wherever it needs the share of households at or above an
    income (app.py:73,78,83,88; app3.py:84; app4.py:74,107; app5.py:73). *)
Definition survival (income : R) : R :=
  Rmax 0 (1 - lognorm_cdf income).

End Income.

(** ** app.py: regional demographic breakdown *)

Module App.
Import Income.

Record region := { rate : R; pop : Z }.

(** app.py:12-18. *)
Definition REGIONS : gmap string region :=
  <["🇨🇦 National" := {| rate := 0.045; pop := 20000000 |}]>
 (<["🇴🇳 Ontario" := {| rate := 0.047; pop := 15000000 |}]>
 (<["🇧🇨 BC" := {| rate := 0.049; pop := 5300000 |}]>
 (<["🇦🇧 Alberta" := {| rate := 0.043; pop := 4500000 |}]>
 (<["🇶🇨 Quebec" := {| rate := 0.044; pop := 9000000 |}]> ∅)))).

(** One entry of [BUYER_DEMOS]; a key the entry does not have is [None]. *)
Record demo :=
  { pct : R; income_mult : option R; amort_bonus : option Z }.

(** app.py:23-28. *)
Definition BUYER_DEMOS : gmap string demo :=
  <["Single" := {| pct := 0.40; income_mult := Some 1.0; amort_bonus := None |}]>
 (<["Couple" := {| pct := 0.60; income_mult := Some 0.75; amort_bonus := None |}]>
 (<["First-Time" := {| pct := 0.45; income_mult := None; amort_bonus := Some 30%Z |}]>
 (<["Repeat" := {| pct := 0.55; income_mult := None; amort_bonus := Some 25%Z |}]> ∅))).

(** app.py:35-39. *)
Definition calculate_down_payment (price : R) : R :=
  if Rle_dec price 500000 then price * 0.05
  else if Rle_dec price 1500000 then
    500000 * 0.05 + (price - 500000) * 0.10
  else price * 0.20.

(** app.py:41-48.  [amort_years] is a Python int, so [n_payments] is an
    int and [**] is an integer power of a float. *)
Definition calc_stress_test_payment
    (price contract_rate : R) (amort_years : Z) : option (R * R * R * Z) :=
  let down_payment := calculate_down_payment price in
  let loan := price - down_payment in
  let stress_rate := Rmax 0.0525 (contract_rate + 0.02) in
  let n_payments := (amort_years * 12)%Z in
  let monthly_rate := stress_rate / 12 in
  monthly_payment ←
    Py.float_div
      (loan * (monthly_rate * powerRZ (1 + monthly_rate) n_payments))
      (powerRZ (1 + monthly_rate) n_payments - 1);
  Some (monthly_payment * 12 / 0.39, down_payment, stress_rate, amort_years).

(** The default [amort_years=25] of the signature. *)
Definition amort_years_default : Z := 25.

(** The first component of the returned tuple, as every caller unpacks it
    ([income_single, down, stress, amort = ...], app.py:72). *)
Definition required_income
    (price contract_rate : R) (amort_years : Z) : option R :=
  '(income, _, _, _) ←
    calc_stress_test_payment price contract_rate amort_years;
  Some income.

(** app.py:68-92.  The function reads the global [region_data]
    (app.py:62), which is made a parameter here. *)
Definition calculate_buyer_breakdown
    (region_data : region) (price : R) (region_pop : Z)
    : option (gmap string R * R * R) :=
  let buyers : gmap string R :=
    <["Single" := 0]> (<["Couple" := 0]> (<["First-Time" := 0]>
    (<["Repeat" := 0]> (<["Total" := 0]> ∅)))) in
  '(income_single, down, stress, amort) ←
    calc_stress_test_payment price (rate region_data) amort_years_default;
  let prob_single := Rmax 0 (1 - lognorm_cdf income_single) in
  d_single ← BUYER_DEMOS !! "Single";
  let buyers := <["Single" := prob_single * IZR region_pop * pct d_single]> buyers in
  d_couple ← BUYER_DEMOS !! "Couple";
  mult ← income_mult d_couple;
  let income_couple := income_single * mult in
  let prob_couple := Rmax 0 (1 - lognorm_cdf income_couple) in
  let buyers := <["Couple" := prob_couple * IZR region_pop * pct d_couple]> buyers in
  d_ft ← BUYER_DEMOS !! "First-Time";
  amort_ft ← amort_bonus d_ft;
  '(income_ft, _, _, _) ←
    calc_stress_test_payment price (rate region_data) amort_ft;
  let prob_ft := Rmax 0 (1 - lognorm_cdf income_ft) in
  let buyers := <["First-Time" := prob_ft * IZR region_pop * pct d_ft]> buyers in
  d_repeat ← BUYER_DEMOS !! "Repeat";
  amort_repeat ← amort_bonus d_repeat;
  '(income_repeat, _, _, _) ←
    calc_stress_test_payment price (rate region_data) amort_repeat;
  let prob_repeat := Rmax 0 (1 - lognorm_cdf income_repeat) in
  let buyers := <["Repeat" := prob_repeat * IZR region_pop * pct d_repeat]> buyers in
  single ← buyers !! "Single";
  couple ← buyers !! "Couple";
  let buyers := <["Total" := single + couple]> buyers in
  Some (buyers, income_single, down).

(** [buyers["Total"]] of a breakdown, as app.py:98 reads it. *)
Definition total_of (result : option (gmap string R * R * R)) : option R :=
  '(buyers, _, _) ← result; buyers !! "Total".

(** What the winner block puts on the page (app.py:135-148): the winning
    property with its "Wins By" metric and the other property's total, or
    the "Equal pricing - Similar buyer pools" notice. *)
Inductive verdict :=
  | Property1Wins (wins_by other_total : R)
  | Property2Wins (wins_by other_total : R)
  | EqualPricing.

(** app.py:95-98 and 135-148, as a function of the three inputs of the
    page.  Both prices come from [st.number_input] with integer bounds and
    are Python ints. *)
Definition compare_properties
    (region_data : region) (price1 price2 : Z) : option verdict :=
  let region_pop := pop region_data in
  '(buyers1, income1_single, down1) ←
    calculate_buyer_breakdown region_data (IZR price1) region_pop;
  '(buyers2, income2_single, down2) ←
    calculate_buyer_breakdown region_data (IZR price2) region_pop;
  total1 ← buyers1 !! "Total";
  total2 ← buyers2 !! "Total";
  let buyer_difference := total1 - total2 in
  if Z_gt_dec (Z.abs (price1 - price2)) 50000 then
    if Rgt_dec buyer_difference 0 then
      Some (Property1Wins buyer_difference total2)
    else
      Some (Property2Wins (Rabs buyer_difference) total1)
  else Some EqualPricing.

End App.

(** ** app2.py: the same breakdown, with the region rate passed explicitly *)

Module App2.
Import Income.

(** app2.py:28-32 and 34-41 repeat app.py:35-39 and 41-48 character for
    character, and app2.py:67-72 repeats the table of app.py:23-28. *)
Definition calculate_down_payment := App.calculate_down_payment.
Definition calc_stress_test_payment := App.calc_stress_test_payment.
Definition BUYER_DEMOS := App.BUYER_DEMOS.

(** app2.py:74-98. *)
Definition calculate_buyer_breakdown
    (price : R) (region_pop : Z) (region_rate : R)
    : option (gmap string R * R * R) :=
  let buyers : gmap string R :=
    <["Single" := 0]> (<["Couple" := 0]> (<["First-Time" := 0]>
    (<["Repeat" := 0]> (<["Total" := 0]> ∅)))) in
  '(income_single, down, stress, amort) ←
    calc_stress_test_payment price region_rate App.amort_years_default;
  let prob_single := Rmax 0 (1 - lognorm_cdf income_single) in
  d_single ← BUYER_DEMOS !! "Single";
  let buyers := <["Single" := prob_single * IZR region_pop * App.pct d_single]> buyers in
  d_couple ← BUYER_DEMOS !! "Couple";
  mult ← App.income_mult d_couple;
  let income_couple := income_single * mult in
  let prob_couple := Rmax 0 (1 - lognorm_cdf income_couple) in
  let buyers := <["Couple" := prob_couple * IZR region_pop * App.pct d_couple]> buyers in
  d_ft ← BUYER_DEMOS !! "First-Time";
  amort_ft ← App.amort_bonus d_ft;
  '(income_ft, _, _, _) ← calc_stress_test_payment price region_rate amort_ft;
  let prob_ft := Rmax 0 (1 - lognorm_cdf income_ft) in
  let buyers := <["First-Time" := prob_ft * IZR region_pop * App.pct d_ft]> buyers in
  d_repeat ← BUYER_DEMOS !! "Repeat";
  amort_repeat ← App.amort_bonus d_repeat;
  '(income_repeat, _, _, _) ←
    calc_stress_test_payment price region_rate amort_repeat;
  let prob_repeat := Rmax 0 (1 - lognorm_cdf income_repeat) in
  let buyers := <["Repeat" := prob_repeat * IZR region_pop * App.pct d_repeat]> buyers in
  single ← buyers !! "Single";
  couple ← buyers !! "Couple";
  let buyers := <["Total" := single + couple]> buyers in
  Some (buyers, income_single, down).

(** app2.py:139-144 has no [else] branch: close prices show nothing. *)
Inductive verdict :=
  | Property1Wins (wins_by : R)
  | Property2Wins (wins_by : R)
  | NothingShown.

(** app2.py:101-103 and 139-144. *)
Definition compare_properties
    (region_data : App.region) (price1 price2 : Z) : option verdict :=
  let region_pop := App.pop region_data in
  '(buyers1, income1_single, down1) ←
    calculate_buyer_breakdown (IZR price1) region_pop (App.rate region_data);
  '(buyers2, income2_single, down2) ←
    calculate_buyer_breakdown (IZR price2) region_pop (App.rate region_data);
  total1 ← buyers1 !! "Total";
  total2 ← buyers2 !! "Total";
  let buyer_difference := total1 - total2 in
  if Z_gt_dec (Z.abs (price1 - price2)) 50000 then
    if Rgt_dec buyer_difference 0 then Some (Property1Wins buyer_difference)
    else Some (Property2Wins (Rabs buyer_difference))
  else Some NothingShown.

(** app2.py:25-26, the exact log-normal density used for the chart.  numpy
    evaluates it without raising; for [x <= 0] the result is [nan] (the
    logarithm of a non-positive number), which is no real number and is
    [None] here.  [**2] is an integer power. *)
Definition lognorm_pdf_with (x mu sigma : R) : option R :=
  if Rlt_dec 0 x then
    Some (exp (- (ln x - mu) ^ 2 / (2 * sigma ^ 2))
          / (x * sigma * sqrt (2 * PI)))
  else None.

Definition lognorm_pdf (x : R) : option R :=
  lognorm_pdf_with x mu_default sigma_default.

End App2.

(** ** app3.py: map tool, first version *)

Module App3.
Import Income.

Record city_data := { lat : R; lon : R; pop : Z }.

(** app3.py:17-27. *)
Definition CANADIAN_CITIES : gmap string city_data :=
  <["Toronto" := {| lat := 43.6532; lon := -79.3832; pop := 6400000 |}]>
 (<["Vancouver" := {| lat := 49.2827; lon := -123.1207; pop := 2700000 |}]>
 (<["Montreal" := {| lat := 45.5017; lon := -73.5673; pop := 4300000 |}]>
 (<["Calgary" := {| lat := 51.0447; lon := -114.0719; pop := 1600000 |}]>
 (<["Edmonton" := {| lat := 53.5444; lon := -113.4909; pop := 1500000 |}]>
 (<["Ottawa" := {| lat := 45.4215; lon := -75.6972; pop := 1400000 |}]>
 (<["Winnipeg" := {| lat := 49.8951; lon := -97.1384; pop := 850000 |}]>
 (<["Quebec City" := {| lat := 46.8139; lon := -71.2080; pop := 850000 |}]>
 (<["Halifax" := {| lat := 44.6488; lon := -63.5752; pop := 450000 |}]>
  ∅)))))))).

(** app3.py:35-38 repeats app.py:35-39. *)
Definition calculate_down_payment := App.calculate_down_payment.

(** The default [rate=0.045] of the signature; the script never passes
    another one. *)
Definition rate_default : R := 0.045.

(** app3.py:40-47: the term is fixed at 25 years. *)
Definition calc_stress_test_payment (price rate : R) : option (R * R) :=
  let down_payment := calculate_down_payment price in
  let loan := price - down_payment in
  let stress_rate := Rmax 0.0525 (rate + 0.02) in
  let n_payments := (25 * 12)%Z in
  let monthly_rate := stress_rate / 12 in
  monthly_payment ←
    Py.float_div
      (loan * (monthly_rate * powerRZ (1 + monthly_rate) n_payments))
      (powerRZ (1 + monthly_rate) n_payments - 1);
  Some (monthly_payment * 12 / 0.39, down_payment).

(** The variables the script leaves behind after app3.py:72-88. *)
Record analysis :=
  { income_final : R; down_payment : R; pop_mult : R;
    prob_affordable : R; base_pop : R; potential_buyers : R }.

(** app3.py:72-88.  [radius_km] (slider) and [price] (number input) are
    Python ints; [household_type] is the label picked in the radio. *)
Definition analyze
    (city : string) (radius_km price : Z) (household_type : string)
    : option analysis :=
  '(income_needed, down_payment) ←
    calc_stress_test_payment (IZR price) rate_default;
  let '(income_final, pop_mult) :=
    if decide (household_type = "Total Market") then (income_needed, 1.0)
    else if decide (household_type = "Couples Only (60%)") then
      (income_needed * 0.75, 0.60)
    else (income_needed, 0.40) in
  let prob_affordable := Rmax 0 (1 - lognorm_cdf income_final) in
  entry ← CANADIAN_CITIES !! city;
  scale ← Py.float_pow (IZR radius_km / 50) 0.7;
  let base_pop := IZR (pop entry) * scale in
  let potential_buyers := prob_affordable * base_pop * pop_mult in
  Some {| income_final := income_final; down_payment := down_payment;
          pop_mult := pop_mult; prob_affordable := prob_affordable;
          base_pop := base_pop; potential_buyers := potential_buyers |}.

(** app3.py:151. *)
Definition neighborhoods : list string := ["Downtown"; "Suburbs"; "Outer Ring"].

(** app3.py:154-158: one row [hood, hood_pop, hood_buyers] per
    neighborhood (the script formats the two numbers for display). *)
Definition neighborhood_data (a : analysis) : list (string * R * R) :=
  map (fun hood : string =>
         let hood_pop :=
           base_pop a
           * (if decide (hood = "Downtown") then 0.3
              else if decide (hood = "Suburbs") then 0.5
              else 0.2) in
         let hood_buyers := prob_affordable a * hood_pop * pop_mult a in
         (hood, hood_pop, hood_buyers))
      neighborhoods.

End App3.

(** ** app4.py: map tool with per-city rates *)

Module App4.
Import Income.

Record city_data := { lat : R; lon : R; pop : Z; rate : R }.

(** app4.py:13-19. *)
Definition CITIES : gmap string city_data :=
  <["Toronto" := {| lat := 43.65; lon := -79.38; pop := 6400000; rate := 0.047 |}]>
 (<["Vancouver" := {| lat := 49.28; lon := -123.12; pop := 2700000; rate := 0.049 |}]>
 (<["Montreal" := {| lat := 45.50; lon := -73.57; pop := 4300000; rate := 0.044 |}]>
 (<["Calgary" := {| lat := 51.04; lon := -114.07; pop := 1600000; rate := 0.043 |}]>
 (<["Edmonton" := {| lat := 53.54; lon := -113.49; pop := 1500000; rate := 0.043 |}]>
  ∅)))).

(** app4.py:26-29: the middle tier starts from the literal 25000. *)
Definition calculate_down_payment (price : R) : R :=
  if Rle_dec price 500000 then price * 0.05
  else if Rle_dec price 1500000 then 25000 + (price - 500000) * 0.10
  else price * 0.20.

(** app4.py:31-38. *)
Definition calc_income_needed (price rate : R) : option (R * R) :=
  let down_payment := calculate_down_payment price in
  let loan := price - down_payment in
  let stress_rate := Rmax 0.0525 (rate + 0.02) in
  let n_payments := (25 * 12)%Z in
  let monthly_rate := stress_rate / 12 in
  monthly_payment ←
    Py.float_div
      (loan * (monthly_rate * powerRZ (1 + monthly_rate) n_payments))
      (powerRZ (1 + monthly_rate) n_payments - 1);
  Some (monthly_payment * 12 / 0.39, down_payment).

(** The variables the script leaves behind after app4.py:61-76. *)
Record analysis :=
  { income_needed : R; down_payment : R; pop_factor : R;
    prob_affordable : R; base_pop : R; buyers_in_radius : R }.

(** app4.py:61-76, with the label of the "all buyers" choice as a
    parameter: it is the only difference to app5.py:60-75. *)
Definition analyze_with
    (total_label city : string) (radius_km price : Z) (buyer_type : string)
    : option analysis :=
  city_data ← CITIES !! city;
  '(income_single, down_payment) ←
    calc_income_needed (IZR price) (rate city_data);
  let '(income_needed, pop_factor) :=
    if decide (buyer_type = total_label) then (income_single, 1.0)
    else if decide (buyer_type = "Couples (60%)") then
      (income_single * 0.75, 0.60)
    else (income_single, 0.40) in
  let prob_affordable := Rmax 0 (1 - lognorm_cdf income_needed) in
  scale ← Py.float_pow (IZR radius_km / 50) 0.7;
  let base_pop := IZR (pop city_data) * scale in
  let buyers_in_radius := prob_affordable * base_pop * pop_factor in
  Some {| income_needed := income_needed; down_payment := down_payment;
          pop_factor := pop_factor; prob_affordable := prob_affordable;
          base_pop := base_pop; buyers_in_radius := buyers_in_radius |}.

Definition analyze := analyze_with "Total Market".

(** [CITIES.items()] in the order the table is written (app4.py:13-19);
    a Python dict iterates in insertion order. *)
Definition CITIES_items : list (string * city_data) :=
  [ ("Toronto", {| lat := 43.65; lon := -79.38; pop := 6400000; rate := 0.047 |});
    ("Vancouver", {| lat := 49.28; lon := -123.12; pop := 2700000; rate := 0.049 |});
    ("Montreal", {| lat := 45.50; lon := -73.57; pop := 4300000; rate := 0.044 |});
    ("Calgary", {| lat := 51.04; lon := -114.07; pop := 1600000; rate := 0.043 |});
    ("Edmonton", {| lat := 53.54; lon := -113.49; pop := 1500000; rate := 0.043 |}) ].

(** The body of the comparison loop (app4.py:106-108, app5.py:123-125):
    the buyers of one city at the page's price, radius and [pop_factor]. *)
Definition comparison_buyers
    (radius_km price : Z) (pop_factor : R) (data : city_data) : option R :=
  '(inc, _) ← calc_income_needed (IZR price) (rate data);
  let prob := Rmax 0 (1 - lognorm_cdf inc) in
  scale ← Py.float_pow (IZR radius_km / 50) 0.7;
  Some (prob * IZR (pop data) * scale * pop_factor).

(** app4.py:104-110 (app5.py:121-126): one row [city, population, buyers]
    per city, in table order. *)
Definition comparison
    (radius_km price : Z) (pop_factor : R) : option (list (string * Z * R)) :=
  mapM (fun item : string * city_data =>
          buyers ← comparison_buyers radius_km price pop_factor item.2;
          Some (item.1, pop item.2, buyers))
       CITIES_items.

(** app4.py:117-122: the four rows of the "Buyer Breakdown" table, from the
    variables of the page.  The couples row has no [max(0, ...)]. *)
Definition buyer_breakdown
    (prob_affordable base_pop income_single : R) : list (string * R) :=
  [ ("Singles (40%)", prob_affordable * base_pop * 0.40);
    ("Couples (60%)", (1 - lognorm_cdf (income_single * 0.75)) * base_pop * 0.60);
    ("First-Time (45%)", prob_affordable * base_pop * 0.45);
    ("Repeat Buyers (55%)", prob_affordable * base_pop * 0.55) ].

(** app4.py:61-76 followed by 117-122: the breakdown table of a page. *)
Definition breakdown_table
    (city : string) (radius_km price : Z) (buyer_type : string)
    : option (list (string * R)) :=
  city_data ← CITIES !! city;
  '(income_single, _) ← calc_income_needed (IZR price) (rate city_data);
  a ← analyze city radius_km price buyer_type;
  Some (buyer_breakdown (prob_affordable a) (base_pop a) income_single).

End App4.

(** ** app5.py: map tool, plotting fixed

    app5.py:13-38 repeats app4.py:13-38; the computation of app5.py:60-75
    differs from app4.py:61-76 only in the label ["Total"]. *)

Module App5.

Definition CITIES := App4.CITIES.
Definition calculate_down_payment := App4.calculate_down_payment.
Definition calc_income_needed := App4.calc_income_needed.
Definition analyze := App4.analyze_with "Total".

(** app5.py:131-134: the two rows of the "Buyer Types" table; here the
    couples row keeps the [max(0, ...)]. *)
Definition buyer_types
    (prob_affordable base_pop income_single : R) : list (string * R) :=
  [ ("Singles (40%)", prob_affordable * base_pop * 0.40);
    ("Couples (60%)",
     Rmax 0 (1 - Income.lognorm_cdf (income_single * 0.75)) * base_pop * 0.60) ].

End App5.

(** ** The down payment rule on IEEE binary64

    The two observed rules, on the kernel's binary64 floats, for a price
    that is already a float (a Python int below 2^53 converts exactly).
    Python's [if a <= b] is [leb], which is false on NaN. *)

Module Binary64.
Local Open Scope float_scope.

(** app.py:35-39, app2.py:28-32, app3.py:35-38. *)
Definition calculate_down_payment_closed (price : float) : float :=
  if price <=? 500000 then price * 0.05
  else if price <=? 1500000 then 500000 * 0.05 + (price - 500000) * 0.10
  else price * 0.20.

(** app4.py:26-29, app5.py:26-29. *)
Definition calculate_down_payment_literal (price : float) : float :=
  if price <=? 500000 then price * 0.05
  else if price <=? 1500000 then 25000 + (price - 500000) * 0.10
  else price * 0.20.

(** [max(0.0525, contract_rate + 0.02)] of app.py:44: Python's [max]
    keeps its first argument unless a later one is strictly greater. *)
Definition stress_rate (contract_rate : float) : float :=
  let candidate := contract_rate + 0.02 in
  if 0.0525 <? candidate then candidate else 0.0525.

End Binary64.

(** ** Closed forms used by the proofs

    Names for the sub-expressions of the code above, so that the lemmas can
    speak about them: none of them is a function of the scripts. *)

Module Closed.
Import Income App.

(** [loan = price - down_payment] (app.py:43). *)
Definition loan (price : R) : R := price - calculate_down_payment price.

(** The payment per unit of loan (app.py:46-47):
    [r * (1 + r)^n / ((1 + r)^n - 1)] with [r = stress_rate / 12]. *)
Definition annuity (stress_rate : R) (n_payments : Z) : R :=
  let monthly_rate := stress_rate / 12 in
  monthly_rate * powerRZ (1 + monthly_rate) n_payments
  / (powerRZ (1 + monthly_rate) n_payments - 1).

(** The income [calc_stress_test_payment] returns when it returns. *)
Definition income_at (price contract_rate : R) (amort_years : Z) : R :=
  loan price
  * annuity (Rmax 0.0525 (contract_rate + 0.02)) (amort_years * 12)
  * 12 / 0.39.

(** The dictionary [calculate_buyer_breakdown] builds, insert by insert. *)
Definition breakdown_of (price rate : R) (region_pop : Z) : gmap string R :=
  let single := survival (income_at price rate 25) * IZR region_pop * 0.40 in
  let couple :=
    survival (income_at price rate 25 * 0.75) * IZR region_pop * 0.60 in
  <["Total" := single + couple]>
  (<["Repeat" := survival (income_at price rate 25) * IZR region_pop * 0.55]>
  (<["First-Time" := survival (income_at price rate 30) * IZR region_pop * 0.45]>
  (<["Couple" := couple]>
  (<["Single" := single]>
  (<["Single" := 0]> (<["Couple" := 0]> (<["First-Time" := 0]>
  (<["Repeat" := 0]> (<["Total" := 0]> ∅))))))))).

(** Its ["Total"] entry. *)
Definition household_count (price rate : R) (region_pop : Z) : R :=
  survival (income_at price rate 25) * IZR region_pop * 0.40
  + survival (income_at price rate 25 * 0.75) * IZR region_pop * 0.60.

End Closed.

(** ** More names for the proofs

    As in [Closed]: sub-expressions of the code, and two notions the
    statements need (a geometric sum, the sum of a column). *)

Module Auxiliary.
Import Income App Closed.

(** [1 + q + ... + q^(n-1)]: the annuity denominator is [(q - 1)] times it. *)
Fixpoint geometric (q : R) (n : nat) : R :=
  match n with
  | O => 0
  | S k => geometric q k + q ^ k
  end.

(** The argument of [tanh] in [lognorm_cdf] (app.py:32-33). *)
Definition standardize (x : R) : R :=
  sqrt (2 / 3) * ((ln x - mu_default) / sigma_default).

(** The logarithm of [sigma * sqrt(2 pi) * lognorm_pdf(exp t)]
    (app2.py:26). *)
Definition log_density (t : R) : R :=
  - (t - mu_default) ^ 2 / (2 * sigma_default ^ 2) - t.

(** The income and population factor a map page picks for a buyer type
    (app3.py:74-82, app4.py:64-72, app5.py:63-71), by the two labels the
    script compares with. *)
Definition selection
    (total_label couples_label buyer_type : string) (income_single : R)
    : R * R :=
  if decide (buyer_type = total_label) then (income_single, 1.0)
  else if decide (buyer_type = couples_label) then (income_single * 0.75, 0.60)
  else (income_single, 0.40).

(** [base_pop] at a positive radius (app3.py:87, app4.py:75). *)
Definition power_law (population radius_km : Z) : R :=
  IZR population * Rpower (IZR radius_km / 50) 0.7.

(** The sum of a column of a table. *)
Definition column_sum (column : list R) : R := fold_right Rplus 0 column.

(** One row of the city comparison at a positive radius (app4.py:106-110). *)
Definition comparison_row
    (radius_km price : Z) (pop_factor : R) (item : string * App4.city_data)
    : string * Z * R :=
  (item.1, App4.pop item.2,
   survival (income_at (IZR price) (App4.rate item.2) 25)
   * IZR (App4.pop item.2) * Rpower (IZR radius_km / 50) 0.7 * pop_factor).

End Auxiliary.

(** * Proofs *)

Import Income App Closed.

(** ** The hyperbolic tangent between -1 and 1 *)

Lemma tanh_as_ratio (x : R) :
  tanh x = (exp x - exp (- x)) / (exp x + exp (- x)).
Proof.
  unfold tanh, sinh, cosh.
  pose proof (exp_pos x). pose proof (exp_pos (- x)).
  field. lra.
Qed.

Lemma tanh_bounds (x : R) : -1 < tanh x < 1.
Proof.
  rewrite tanh_as_ratio.
  pose proof (exp_pos x) as Ha. pose proof (exp_pos (- x)) as Hb.
  split; apply Rmult_lt_reg_r with (exp x + exp (- x)); try lra;
    unfold Rdiv; rewrite Rmult_assoc, Rinv_l by lra; lra.
Qed.

Lemma tanh_monotone (x y : R) : x <= y -> tanh x <= tanh y.
Proof.
  intros Hxy. rewrite !tanh_as_ratio.
  pose proof (exp_pos x) as Ha. pose proof (exp_pos (- x)) as Ha'.
  pose proof (exp_pos y) as Hb. pose proof (exp_pos (- y)) as Hb'.
  assert (Hab : exp x <= exp y).
  { destruct Hxy as [Hlt | ->];
      [left; now apply exp_increasing | right; reflexivity]. }
  assert (Hba : exp (- y) <= exp (- x)).
  { destruct Hxy as [Hlt | ->];
      [left; apply exp_increasing; lra | right; reflexivity]. }
  apply Rmult_le_reg_r with ((exp x + exp (- x)) * (exp y + exp (- y))).
  { apply Rmult_lt_0_compat; lra. }
  replace ((exp x - exp (- x)) / (exp x + exp (- x)) *
           ((exp x + exp (- x)) * (exp y + exp (- y))))
    with ((exp x - exp (- x)) * (exp y + exp (- y))) by (field; lra).
  replace ((exp y - exp (- y)) / (exp y + exp (- y)) *
           ((exp x + exp (- x)) * (exp y + exp (- y))))
    with ((exp y - exp (- y)) * (exp x + exp (- x))) by (field; lra).
  nra.
Qed.

(** ** The income distribution *)

Lemma lognorm_cdf_nonpos (x : R) : x <= 0 -> lognorm_cdf x = 0.
Proof.
  intros Hx. unfold lognorm_cdf, lognorm_cdf_with.
  destruct (Rle_dec x 0) as [_ | Hn]; [reflexivity | contradiction].
Qed.

Lemma lognorm_cdf_pos_eq (x : R) :
  0 < x ->
  lognorm_cdf x =
  0.5 * (1 + tanh (sqrt (2 / 3) * ((ln x - mu_default) / sigma_default))).
Proof.
  intros Hx. unfold lognorm_cdf, lognorm_cdf_with.
  destruct (Rle_dec x 0) as [Hle | _]; [lra | reflexivity].
Qed.

Lemma lognorm_cdf_range (x : R) : 0 <= lognorm_cdf x < 1.
Proof.
  destruct (Rle_dec x 0) as [Hle | Hgt].
  - rewrite lognorm_cdf_nonpos by assumption. lra.
  - rewrite lognorm_cdf_pos_eq by lra.
    pose proof
      (tanh_bounds (sqrt (2 / 3) * ((ln x - mu_default) / sigma_default))).
    lra.
Qed.

Lemma lognorm_cdf_monotone (x y : R) :
  x <= y -> lognorm_cdf x <= lognorm_cdf y.
Proof.
  intros Hxy.
  destruct (Rle_dec x 0) as [Hx | Hx].
  - rewrite (lognorm_cdf_nonpos x Hx). apply lognorm_cdf_range.
  - assert (Hx0 : 0 < x) by lra. assert (Hy0 : 0 < y) by lra.
    rewrite !lognorm_cdf_pos_eq by assumption.
    assert (Hln : ln x <= ln y).
    { destruct Hxy as [Hlt | ->];
        [left; now apply ln_increasing | right; reflexivity]. }
    assert (Hs : 0 <= sqrt (2 / 3)) by apply sqrt_pos.
    assert (Hz : (ln x - mu_default) / sigma_default
                 <= (ln y - mu_default) / sigma_default).
    { unfold sigma_default, Rdiv. apply Rmult_le_compat_r; [|lra].
      left. apply Rinv_0_lt_compat. lra. }
    pose proof (tanh_monotone _ _ (Rmult_le_compat_l _ _ _ Hs Hz)).
    lra.
Qed.

Lemma survival_range (x : R) : 0 < survival x <= 1.
Proof.
  unfold survival. pose proof (lognorm_cdf_range x) as [H0 H1].
  rewrite Rmax_right by lra. lra.
Qed.

Lemma survival_antitone (x y : R) : x <= y -> survival y <= survival x.
Proof.
  intros Hxy. unfold survival.
  pose proof (lognorm_cdf_monotone x y Hxy).
  apply Rle_max_compat_l. lra.
Qed.

(** C6.  [lognorm_cdf] is exactly 0 on every income at or below zero, it is
    non-decreasing over all reals, and the survival fraction
    [max(0, 1 - lognorm_cdf(income))] of every positive income lies between
    0 and 1. *)
Theorem lognorm_cdf_support_monotone_bounded :
  (forall income : R, income <= 0 -> lognorm_cdf income = 0) /\
  (forall x y : R, x <= y -> lognorm_cdf x <= lognorm_cdf y) /\
  (forall income : R,
     0 < income -> 0 <= Rmax 0 (1 - lognorm_cdf income) <= 1).
Proof.
  split; [exact lognorm_cdf_nonpos|].
  split; [exact lognorm_cdf_monotone|].
  intros income _. pose proof (survival_range income) as H.
  unfold survival in H. lra.
Qed.

(** ** The down payment and the loan *)

(** C1.  [calculate_down_payment] returns 5% of the price up to 500,000,
    5% of 500,000 plus 10% of the part above 500,000 up to 1,500,000, and
    20% of the whole price above 1,500,000.  This holds for every price,
    hence for the non-negative prices the spec speaks of. *)
Theorem down_payment_tiers (price : R) :
  (price <= 500000 -> calculate_down_payment price = 0.05 * price) /\
  (500000 < price <= 1500000 ->
   calculate_down_payment price = 0.05 * 500000 + 0.10 * (price - 500000)) /\
  (1500000 < price -> calculate_down_payment price = 0.20 * price).
Proof.
  unfold calculate_down_payment.
  destruct (Rle_dec price 500000) as [Hlow | Hlow].
  - repeat split; intros; lra.
  - destruct (Rle_dec price 1500000) as [Hmid | Hmid];
      repeat split; intros; lra.
Qed.

(** The spec's scenario: 800,000 needs 55,000 down. *)
Lemma down_payment_tiers_witness : calculate_down_payment 800000 = 55000.
Proof.
  rewrite (proj1 (proj2 (down_payment_tiers 800000))) by lra. lra.
Defined.

Lemma loan_low (p : R) : p <= 500000 -> loan p = 0.95 * p.
Proof.
  intros H. unfold loan, calculate_down_payment.
  destruct (Rle_dec p 500000); lra.
Qed.

Lemma loan_mid (p : R) : 500000 < p <= 1500000 -> loan p = 0.9 * p + 25000.
Proof.
  intros H. unfold loan, calculate_down_payment.
  destruct (Rle_dec p 500000); [lra|].
  destruct (Rle_dec p 1500000); lra.
Qed.

Lemma loan_high (p : R) : 1500000 < p -> loan p = 0.8 * p.
Proof.
  intros H. unfold loan, calculate_down_payment.
  destruct (Rle_dec p 500000); [lra|].
  destruct (Rle_dec p 1500000); lra.
Qed.

(** Split on the tier of [p] and rewrite [loan p] to its linear form. *)
Ltac loan_cases p :=
  let H := fresh "Hlow" in
  destruct (Rle_dec p 500000) as [H | H];
  [ rewrite (loan_low p H)
  | let H' := fresh "Hmid" in
    destruct (Rle_dec p 1500000) as [H' | H'];
    [ rewrite (loan_mid p) by lra | rewrite (loan_high p) by lra ] ].

Lemma loan_increasing_within_tiers (p1 p2 : R) :
  p1 < p2 -> p2 <= 1500000 \/ 1500000 < p1 -> loan p1 < loan p2.
Proof. intros Hlt Htier. loan_cases p1; loan_cases p2; lra. Qed.

Lemma loan_pos (p : R) : 0 < p -> 0 < loan p.
Proof. intros Hp. loan_cases p; lra. Qed.

Lemma loan_nonneg (p : R) : 0 <= p -> 0 <= loan p.
Proof. intros Hp. loan_cases p; lra. Qed.

(** ** The stress test *)

Lemma stress_rate_floor (c : R) : 0.0525 <= Rmax 0.0525 (c + 0.02).
Proof. apply Rmax_l. Qed.

Lemma powerRZ_gt_1 (q : R) (n : Z) : 1 < q -> (0 < n)%Z -> 1 < powerRZ q n.
Proof.
  intros Hq Hn.
  destruct n as [| p | p]; try lia.
  simpl. apply Rlt_pow_R1; [assumption | lia].
Qed.

Lemma powerRZ_strict_mono (q : R) (a b : Z) :
  1 < q -> (a < b)%Z -> powerRZ q a < powerRZ q b.
Proof.
  intros Hq Hab.
  replace b with (a + (b - a))%Z by lia.
  rewrite powerRZ_add by lra.
  assert (Ha : 0 < powerRZ q a) by (apply powerRZ_lt; lra).
  assert (Hd : 1 < powerRZ q (b - a))
    by (apply powerRZ_gt_1; [assumption | lia]).
  nra.
Qed.

Lemma powerRZ_ne_1 (q : R) (n : Z) : 1 < q -> n <> 0%Z -> powerRZ q n <> 1.
Proof.
  intros Hq Hn.
  destruct (Z.lt_total n 0) as [Hneg | [H0 | Hpos]]; [| contradiction |].
  - pose proof (powerRZ_strict_mono q n 0 Hq Hneg) as H. simpl in H. lra.
  - pose proof (powerRZ_gt_1 q n Hq Hpos). lra.
Qed.

(** The payment per unit of loan, at a positive stress rate. *)
Section Annuity.

Variable s : R.
Hypothesis stress_positive : 0 < s.

Lemma annuity_base_gt_1 : 1 < 1 + s / 12.
Proof. lra. Qed.

Lemma annuity_pos (n : Z) : (0 < n)%Z -> 0 < annuity s n.
Proof.
  intros Hn. unfold annuity.
  pose proof (powerRZ_gt_1 _ _ annuity_base_gt_1 Hn) as Hp.
  apply Rdiv_lt_0_compat; [|lra].
  apply Rmult_lt_0_compat; lra.
Qed.

(** More payments, smaller payments: [t / (t - 1)] falls as [t] grows. *)
Lemma annuity_strict_antitone (n m : Z) :
  (0 < n)%Z -> (n < m)%Z -> annuity s m < annuity s n.
Proof.
  intros Hn Hnm. unfold annuity.
  pose proof (powerRZ_gt_1 _ _ annuity_base_gt_1 Hn) as Hpn.
  pose proof (powerRZ_strict_mono _ _ _ annuity_base_gt_1 Hnm) as Hpm.
  set (r := s / 12) in *. set (u := powerRZ (1 + r) n) in *.
  set (v := powerRZ (1 + r) m) in *.
  assert (Hr : 0 < r) by (unfold r; lra).
  apply Rmult_lt_reg_r with ((u - 1) * (v - 1)).
  { apply Rmult_lt_0_compat; lra. }
  replace (r * v / (v - 1) * ((u - 1) * (v - 1))) with (r * v * (u - 1))
    by (field; lra).
  replace (r * u / (u - 1) * ((u - 1) * (v - 1))) with (r * u * (v - 1))
    by (field; lra).
  nra.
Qed.

End Annuity.

(** The function returns for every term but 0 years, where the annuity
    denominator vanishes and Python raises [ZeroDivisionError]. *)
Lemma calc_stress_test_payment_eq (price c : R) (n : Z) :
  n <> 0%Z ->
  calc_stress_test_payment price c n =
  Some (income_at price c n,
        calculate_down_payment price, Rmax 0.0525 (c + 0.02), n).
Proof.
  intros Hn. unfold calc_stress_test_payment, Py.float_div, income_at.
  pose proof (stress_rate_floor c) as Hs.
  set (s := Rmax 0.0525 (c + 0.02)) in *.
  assert (Hq : 1 < 1 + s / 12) by lra.
  assert (Hp : powerRZ (1 + s / 12) (n * 12) <> 1).
  { apply powerRZ_ne_1; [assumption | lia]. }
  destruct (Req_dec_T (powerRZ (1 + s / 12) (n * 12) - 1) 0) as [H0 | _];
    [lra|].
  simpl. do 2 f_equal. f_equal. f_equal. unfold loan, annuity. field. lra.
Qed.


Lemma required_income_eq (price c : R) (n : Z) :
  n <> 0%Z -> required_income price c n = Some (income_at price c n).
Proof.
  intros Hn. unfold required_income.
  rewrite calc_stress_test_payment_eq by assumption. reflexivity.
Qed.

Lemma income_at_scale (price c : R) (n : Z) :
  income_at price c n
  = loan price * (annuity (Rmax 0.0525 (c + 0.02)) (n * 12) * 12 / 0.39).
Proof. unfold income_at. lra. Qed.

Lemma income_factor_pos (c : R) (n : Z) :
  (1 <= n)%Z -> 0 < annuity (Rmax 0.0525 (c + 0.02)) (n * 12) * 12 / 0.39.
Proof.
  intros Hn. pose proof (stress_rate_floor c) as Hs.
  assert (Ha : 0 < annuity (Rmax 0.0525 (c + 0.02)) (n * 12)).
  { apply annuity_pos; [lra | lia]. }
  lra.
Qed.

Lemma income_at_nonneg (price c : R) (n : Z) :
  0 <= price -> (1 <= n)%Z -> 0 <= income_at price c n.
Proof.
  intros Hp Hn. rewrite income_at_scale.
  apply Rmult_le_pos; [now apply loan_nonneg|].
  left. now apply income_factor_pos.
Qed.

(** The spec's scenario: 800,000 at 4.5% over 25 years borrows 745,000 at a
    stress rate of 6.5%. *)
Example stress_test_800k :
  calc_stress_test_payment 800000 0.045 25
  = Some (745000 * annuity 0.065 300 * 12 / 0.39, 55000, 0.065, 25%Z).
Proof.
  rewrite calc_stress_test_payment_eq by lia. unfold income_at.
  rewrite (loan_mid 800000) by lra.
  replace (Rmax 0.0525 (0.045 + 0.02)) with 0.065
    by (rewrite Rmax_right; lra).
  assert (Hdown : calculate_down_payment 800000 = 55000).
  { pose proof (loan_mid 800000 ltac:(lra)) as H. unfold loan in H. lra. }
  rewrite Hdown.
  replace (0.9 * 800000 + 25000) with 745000 by lra. reflexivity.
Qed.

(** C2, refuted as stated: at 4.5% over 25 years a 1,600,000 home needs
    less income than a 1,500,000 home, because the down payment jumps from
    125,000 to 320,000 and the loan falls from 1,375,000 to 1,280,000. *)
Lemma income_drops_across_top_tier :
  exists i1 i2 : R,
    required_income 1500000 0.045 25 = Some i1 /\
    required_income 1600000 0.045 25 = Some i2 /\
    i2 < i1.
Proof.
  exists (income_at 1500000 0.045 25), (income_at 1600000 0.045 25).
  split; [apply required_income_eq; lia|].
  split; [apply required_income_eq; lia|].
  rewrite !income_at_scale.
  rewrite (loan_mid 1500000) by lra. rewrite (loan_high 1600000) by lra.
  pose proof (income_factor_pos 0.045 25 ltac:(lia)). nra.
Qed.

(** C2, amended.  For a fixed contract rate and a term of at least one
    year, the required income is strictly increasing in the price among
    prices up to 1,500,000 and among prices above 1,500,000; for a fixed
    positive price and rate it is strictly decreasing in the term. *)
Theorem income_monotone_within_tiers (c : R) (n : Z) :
  (1 <= n)%Z ->
  (forall p1 p2 : R,
     p1 < p2 -> p2 <= 1500000 \/ 1500000 < p1 ->
     exists i1 i2 : R,
       required_income p1 c n = Some i1 /\
       required_income p2 c n = Some i2 /\ i1 < i2) /\
  (forall (price : R) (m : Z),
     0 < price -> (n < m)%Z ->
     exists i_n i_m : R,
       required_income price c n = Some i_n /\
       required_income price c m = Some i_m /\ i_m < i_n).
Proof.
  intros Hn. split.
  - intros p1 p2 Hlt Htier.
    exists (income_at p1 c n), (income_at p2 c n).
    split; [apply required_income_eq; lia|].
    split; [apply required_income_eq; lia|].
    rewrite !income_at_scale.
    apply Rmult_lt_compat_r; [now apply income_factor_pos|].
    now apply loan_increasing_within_tiers.
  - intros price m Hp Hnm.
    exists (income_at price c n), (income_at price c m).
    split; [apply required_income_eq; lia|].
    split; [apply required_income_eq; lia|].
    rewrite !income_at_scale.
    apply Rmult_lt_compat_l; [now apply loan_pos|].
    pose proof (stress_rate_floor c) as Hs.
    assert (annuity (Rmax 0.0525 (c + 0.02)) (m * 12)
            < annuity (Rmax 0.0525 (c + 0.02)) (n * 12)).
    { apply annuity_strict_antitone; [lra | lia | lia]. }
    lra.
Qed.

Lemma income_monotone_within_tiers_witness :
  (exists i1 i2 : R,
     required_income 800000 0.045 25 = Some i1 /\
     required_income 1000000 0.045 25 = Some i2 /\ i1 < i2) /\
  (exists i25 i30 : R,
     required_income 800000 0.045 25 = Some i25 /\
     required_income 800000 0.045 30 = Some i30 /\ i30 < i25).
Proof.
  destruct (income_monotone_within_tiers 0.045 25 ltac:(lia)) as [Hp Ha].
  split.
  - apply Hp; lra.
  - apply Ha; [lra | lia].
Defined.

(** C3.  Whenever [calc_stress_test_payment] returns (every term but 0
    years), the stress rate it reports is [max(0.0525, contract_rate + 0.02)]:
    0.0525 at a contract rate of 0.03 and 0.08 at 0.06.  The two examples
    also hold bit for bit on binary64. *)
Theorem stress_rate_is_floored_buffer (price c : R) (n : Z) :
  n <> 0%Z ->
  (exists income down : R,
     calc_stress_test_payment price c n
     = Some (income, down, Rmax 0.0525 (c + 0.02), n)) /\
  (exists income down : R,
     calc_stress_test_payment price 0.03 n = Some (income, down, 0.0525, n)) /\
  (exists income down : R,
     calc_stress_test_payment price 0.06 n = Some (income, down, 0.08, n)) /\
  Binary64.stress_rate 0.03 = 0.0525%float /\
  Binary64.stress_rate 0.06 = 0.08%float.
Proof.
  intros Hn. split; [| split; [| split; [| split]]].
  - eexists _, _. now apply calc_stress_test_payment_eq.
  - eexists _, _. rewrite calc_stress_test_payment_eq by assumption.
    do 2 f_equal. f_equal. apply Rmax_left. lra.
  - eexists _, _. rewrite calc_stress_test_payment_eq by assumption.
    do 2 f_equal. f_equal. rewrite Rmax_right by lra. lra.
  - vm_compute. reflexivity.
  - vm_compute. reflexivity.
Qed.

Lemma stress_rate_is_floored_buffer_witness :
  exists income down : R,
    calc_stress_test_payment 800000 0.045 25
    = Some (income, down, Rmax 0.0525 (0.045 + 0.02), 25%Z).
Proof.
  apply (proj1 (stress_rate_is_floored_buffer 800000 0.045 25 ltac:(lia))).
Defined.

(** C7.  For a term of at least one year the stress rate is at least
    0.0525, the monthly rate is positive, the annuity denominator
    [(1 + monthly_rate)^n_payments - 1] is not zero, and the function
    returns the quotient of the payment formula (no [ZeroDivisionError]). *)
Theorem annuity_division_defined (price c : R) (n : Z) :
  (1 <= n)%Z ->
  let stress_rate := Rmax 0.0525 (c + 0.02) in
  let monthly_rate := stress_rate / 12 in
  let n_payments := (n * 12)%Z in
  0.0525 <= stress_rate /\
  0 < monthly_rate /\
  powerRZ (1 + monthly_rate) n_payments - 1 <> 0 /\
  calc_stress_test_payment price c n
  = Some ((price - calculate_down_payment price)
          * (monthly_rate * powerRZ (1 + monthly_rate) n_payments)
          / (powerRZ (1 + monthly_rate) n_payments - 1) * 12 / 0.39,
          calculate_down_payment price, stress_rate, n).
Proof.
  intros Hn stress_rate monthly_rate n_payments.
  pose proof (stress_rate_floor c) as Hs. fold stress_rate in Hs.
  assert (Hm : 0 < monthly_rate) by (unfold monthly_rate; lra).
  assert (Hp : 1 < powerRZ (1 + monthly_rate) n_payments).
  { apply powerRZ_gt_1; [lra | unfold n_payments; lia]. }
  repeat split; [assumption | assumption | lra |].
  unfold calc_stress_test_payment, Py.float_div.
  fold stress_rate. fold monthly_rate. fold n_payments.
  destruct (Req_dec_T (powerRZ (1 + monthly_rate) n_payments - 1) 0)
    as [H0 | _]; [lra | reflexivity].
Qed.

Lemma annuity_division_defined_witness :
  0.0525 <= Rmax 0.0525 (0.045 + 0.02) /\
  0 < Rmax 0.0525 (0.045 + 0.02) / 12 /\
  powerRZ (1 + Rmax 0.0525 (0.045 + 0.02) / 12) (25 * 12) - 1 <> 0.
Proof.
  pose proof (annuity_division_defined 800000 0.045 25 ltac:(lia)) as H.
  cbv zeta in H. destruct H as (H1 & H2 & H3 & _). auto.
Defined.

(** ** The buyer breakdown *)

Lemma demos_single :
  BUYER_DEMOS !! "Single"
  = Some {| pct := 0.40; income_mult := Some 1.0; amort_bonus := None |}.
Proof. reflexivity. Qed.

Lemma demos_couple :
  BUYER_DEMOS !! "Couple"
  = Some {| pct := 0.60; income_mult := Some 0.75; amort_bonus := None |}.
Proof. reflexivity. Qed.

Lemma demos_first_time :
  BUYER_DEMOS !! "First-Time"
  = Some {| pct := 0.45; income_mult := None; amort_bonus := Some 30%Z |}.
Proof. reflexivity. Qed.

Lemma demos_repeat :
  BUYER_DEMOS !! "Repeat"
  = Some {| pct := 0.55; income_mult := None; amort_bonus := Some 25%Z |}.
Proof. reflexivity. Qed.

(** One step of reading a key of a dictionary built by inserts. *)
Ltac map_lookup :=
  first [ rewrite lookup_insert_eq
        | rewrite lookup_insert_ne; [| done] ].

(** Runs the body of [calculate_buyer_breakdown]: three stress tests, the
    four table entries, and the reads of ["Single"] and ["Couple"]. *)
Ltac run_breakdown :=
  rewrite calc_stress_test_payment_eq by lia; cbn [mbind option_bind];
  rewrite demos_single; cbn [mbind option_bind pct];
  rewrite demos_couple; cbn [mbind option_bind pct income_mult];
  rewrite demos_first_time; cbn [mbind option_bind pct amort_bonus];
  rewrite calc_stress_test_payment_eq by lia; cbn [mbind option_bind];
  rewrite demos_repeat; cbn [mbind option_bind pct amort_bonus];
  rewrite calc_stress_test_payment_eq by lia; cbn [mbind option_bind];
  repeat (map_lookup; cbn [mbind option_bind]);
  reflexivity.

Lemma calculate_buyer_breakdown_eq (rd : region) (price : R) (region_pop : Z) :
  calculate_buyer_breakdown rd price region_pop =
  Some (breakdown_of price (rate rd) region_pop,
        income_at price (rate rd) 25, calculate_down_payment price).
Proof.
  unfold calculate_buyer_breakdown, amort_years_default.
  run_breakdown.
Qed.

Lemma calculate_buyer_breakdown2_eq (price : R) (region_pop : Z) (r : R) :
  App2.calculate_buyer_breakdown price region_pop r =
  Some (breakdown_of price r region_pop,
        income_at price r 25, calculate_down_payment price).
Proof.
  unfold App2.calculate_buyer_breakdown, App2.calc_stress_test_payment,
    App2.BUYER_DEMOS, amort_years_default.
  run_breakdown.
Qed.

(** The entries of the finished dictionary, key by key. *)
Section BreakdownEntries.

Variables (price r : R) (region_pop : Z).

Lemma breakdown_single :
  breakdown_of price r region_pop !! "Single"
  = Some (survival (income_at price r 25) * IZR region_pop * 0.40).
Proof. unfold breakdown_of. cbv zeta. repeat map_lookup. reflexivity. Qed.

Lemma breakdown_couple :
  breakdown_of price r region_pop !! "Couple"
  = Some (survival (income_at price r 25 * 0.75) * IZR region_pop * 0.60).
Proof. unfold breakdown_of. cbv zeta. repeat map_lookup. reflexivity. Qed.

Lemma breakdown_first_time :
  breakdown_of price r region_pop !! "First-Time"
  = Some (survival (income_at price r 30) * IZR region_pop * 0.45).
Proof. unfold breakdown_of. cbv zeta. repeat map_lookup. reflexivity. Qed.

Lemma breakdown_repeat :
  breakdown_of price r region_pop !! "Repeat"
  = Some (survival (income_at price r 25) * IZR region_pop * 0.55).
Proof. unfold breakdown_of. cbv zeta. repeat map_lookup. reflexivity. Qed.

Lemma breakdown_total :
  breakdown_of price r region_pop !! "Total"
  = Some (household_count price r region_pop).
Proof. unfold breakdown_of. cbv zeta. repeat map_lookup. reflexivity. Qed.

End BreakdownEntries.

Lemma segment_count_pos (income : R) (region_pop : Z) (share : R) :
  (0 < region_pop)%Z -> 0 < share ->
  0 < survival income * IZR region_pop * share.
Proof.
  intros Hpop Hshare. apply IZR_lt in Hpop.
  pose proof (survival_range income) as [Hs _].
  apply Rmult_lt_0_compat; [apply Rmult_lt_0_compat|]; assumption.
Qed.

(** Reads the five entries of [breakdown_of] and compares the total with
    the sum of all four segments. *)
Ltac read_breakdown price r region_pop :=
  eexists _, _, _, _, _, _, _;
  split; [reflexivity|];
  split; [apply breakdown_single|];
  split; [apply breakdown_couple|];
  split; [apply breakdown_first_time|];
  split; [apply breakdown_repeat|];
  split; [apply breakdown_total|];
  let Hpop := fresh "Hpop" in
  intros Hpop;
  pose proof (segment_count_pos (income_at price r 30) region_pop 0.45
                Hpop ltac:(lra));
  pose proof (segment_count_pos (income_at price r 25) region_pop 0.55
                Hpop ltac:(lra));
  unfold household_count; lra.

(** C5.  In the breakdown of app.py and of app2.py, for every price,
    region rate and population, the ["Total"] entry is the ["Single"] entry
    plus the ["Couple"] entry; the ["First-Time"] and ["Repeat"] entries are
    not part of it, so with a positive population the total is strictly
    below the sum of all four segments. *)
Theorem total_is_single_plus_couple
    (rd : region) (price r : R) (region_pop : Z) :
  (exists (buyers : gmap string R)
          (income down single couple first_time repeat_ : R),
     calculate_buyer_breakdown rd price region_pop
     = Some (buyers, income, down) /\
     buyers !! "Single" = Some single /\
     buyers !! "Couple" = Some couple /\
     buyers !! "First-Time" = Some first_time /\
     buyers !! "Repeat" = Some repeat_ /\
     buyers !! "Total" = Some (single + couple) /\
     ((0 < region_pop)%Z ->
      single + couple < single + couple + first_time + repeat_)) /\
  (exists (buyers : gmap string R)
          (income down single couple first_time repeat_ : R),
     App2.calculate_buyer_breakdown price region_pop r
     = Some (buyers, income, down) /\
     buyers !! "Single" = Some single /\
     buyers !! "Couple" = Some couple /\
     buyers !! "First-Time" = Some first_time /\
     buyers !! "Repeat" = Some repeat_ /\
     buyers !! "Total" = Some (single + couple) /\
     ((0 < region_pop)%Z ->
      single + couple < single + couple + first_time + repeat_)).
Proof.
  split.
  - rewrite calculate_buyer_breakdown_eq.
    read_breakdown price (rate rd) region_pop.
  - rewrite calculate_buyer_breakdown2_eq.
    read_breakdown price r region_pop.
Qed.

(** C10.  In every breakdown of a non-negative price the couple threshold,
    0.75 times the single qualifying income, is at most the single
    threshold, and the couple survival fraction is at least the single
    one; these are the fractions behind the ["Couple"] and ["Single"]
    entries. *)
Theorem couple_threshold_below_single
    (rd : region) (price : R) (region_pop : Z) :
  0 <= price ->
  exists (buyers : gmap string R) (income_single down : R),
    calculate_buyer_breakdown rd price region_pop
    = Some (buyers, income_single, down) /\
    let income_couple := income_single * 0.75 in
    income_couple <= income_single /\
    survival income_single <= survival income_couple /\
    buyers !! "Single" = Some (survival income_single * IZR region_pop * 0.40) /\
    buyers !! "Couple" = Some (survival income_couple * IZR region_pop * 0.60).
Proof.
  intros Hp.
  exists (breakdown_of price (rate rd) region_pop),
         (income_at price (rate rd) 25), (calculate_down_payment price).
  split; [apply calculate_buyer_breakdown_eq|].
  pose proof (income_at_nonneg price (rate rd) 25 Hp ltac:(lia)) as Hinc.
  cbv zeta.
  assert (Hle : income_at price (rate rd) 25 * 0.75
                <= income_at price (rate rd) 25) by lra.
  split; [exact Hle|].
  split; [now apply survival_antitone|].
  split; [apply breakdown_single | apply breakdown_couple].
Qed.

Lemma couple_threshold_below_single_witness :
  exists (buyers : gmap string R) (income_single down : R),
    calculate_buyer_breakdown
      {| rate := 0.045; pop := 20000000 |} 800000 20000000
    = Some (buyers, income_single, down) /\
    income_single * 0.75 <= income_single /\
    survival income_single <= survival (income_single * 0.75).
Proof.
  destruct (couple_threshold_below_single
              {| rate := 0.045; pop := 20000000 |} 800000 20000000
              ltac:(lra))
    as (buyers & income_single & down & Hres & Hle & Hsurv & _).
  exists buyers, income_single, down. auto.
Defined.

(** ** Comparing two properties *)

Lemma total_of_breakdown (rd : region) (price : R) (region_pop : Z) :
  total_of (calculate_buyer_breakdown rd price region_pop)
  = Some (household_count price (rate rd) region_pop).
Proof.
  rewrite calculate_buyer_breakdown_eq. unfold total_of.
  cbn [mbind option_bind]. apply breakdown_total.
Qed.

Lemma total_of_breakdown2 (price r : R) (region_pop : Z) :
  total_of (App2.calculate_buyer_breakdown price region_pop r)
  = Some (household_count price r region_pop).
Proof.
  rewrite calculate_buyer_breakdown2_eq. unfold total_of.
  cbn [mbind option_bind]. apply breakdown_total.
Qed.

Lemma compare_properties_eq (rd : region) (price1 price2 : Z) :
  let total1 := household_count (IZR price1) (rate rd) (pop rd) in
  let total2 := household_count (IZR price2) (rate rd) (pop rd) in
  compare_properties rd price1 price2 =
  if Z_gt_dec (Z.abs (price1 - price2)) 50000 then
    if Rgt_dec (total1 - total2) 0 then
      Some (Property1Wins (total1 - total2) total2)
    else Some (Property2Wins (Rabs (total1 - total2)) total1)
  else Some EqualPricing.
Proof.
  intros total1 total2. unfold compare_properties.
  rewrite !calculate_buyer_breakdown_eq. cbn [mbind option_bind].
  rewrite !breakdown_total. cbn [mbind option_bind]. reflexivity.
Qed.

Lemma compare_properties2_eq (rd : region) (price1 price2 : Z) :
  let total1 := household_count (IZR price1) (rate rd) (pop rd) in
  let total2 := household_count (IZR price2) (rate rd) (pop rd) in
  App2.compare_properties rd price1 price2 =
  if Z_gt_dec (Z.abs (price1 - price2)) 50000 then
    if Rgt_dec (total1 - total2) 0 then
      Some (App2.Property1Wins (total1 - total2))
    else Some (App2.Property2Wins (Rabs (total1 - total2)))
  else Some App2.NothingShown.
Proof.
  intros total1 total2. unfold App2.compare_properties.
  rewrite !calculate_buyer_breakdown2_eq. cbn [mbind option_bind].
  rewrite !breakdown_total. cbn [mbind option_bind]. reflexivity.
Qed.

(** X25.  What the winner blocks do on every input.  Let [total1] and
    [total2] be the ["Total"] entries of the two breakdowns over one region
    (they are the same in app.py and app2.py).  When the prices differ by
    more than 50,000, Property 1 is reported when its total is strictly the
    larger one and Property 2 otherwise, also when the totals are equal,
    each time with the absolute difference of the totals as the margin.
    When the prices differ by at most 50,000 no winner is reported: app.py
    shows its "Equal pricing" notice and app2.py shows nothing. *)
Theorem comparison_reports_larger_total (rd : region) (price1 price2 : Z) :
  exists total1 total2 : R,
    total_of (calculate_buyer_breakdown rd (IZR price1) (pop rd))
    = Some total1 /\
    total_of (calculate_buyer_breakdown rd (IZR price2) (pop rd))
    = Some total2 /\
    total_of (App2.calculate_buyer_breakdown (IZR price1) (pop rd) (rate rd))
    = Some total1 /\
    total_of (App2.calculate_buyer_breakdown (IZR price2) (pop rd) (rate rd))
    = Some total2 /\
    ((Z.abs (price1 - price2) > 50000)%Z ->
     (total2 < total1 /\
      compare_properties rd price1 price2
      = Some (Property1Wins (Rabs (total1 - total2)) total2) /\
      App2.compare_properties rd price1 price2
      = Some (App2.Property1Wins (Rabs (total1 - total2))))
     \/
     (total1 <= total2 /\
      compare_properties rd price1 price2
      = Some (Property2Wins (Rabs (total1 - total2)) total1) /\
      App2.compare_properties rd price1 price2
      = Some (App2.Property2Wins (Rabs (total1 - total2))))) /\
    ((Z.abs (price1 - price2) <= 50000)%Z ->
     compare_properties rd price1 price2 = Some EqualPricing /\
     App2.compare_properties rd price1 price2 = Some App2.NothingShown).
Proof.
  exists (household_count (IZR price1) (rate rd) (pop rd)),
         (household_count (IZR price2) (rate rd) (pop rd)).
  split; [apply total_of_breakdown|].
  split; [apply total_of_breakdown|].
  split; [apply total_of_breakdown2|].
  split; [apply total_of_breakdown2|].
  rewrite compare_properties_eq, compare_properties2_eq. cbv zeta.
  set (total1 := household_count (IZR price1) (rate rd) (pop rd)).
  set (total2 := household_count (IZR price2) (rate rd) (pop rd)).
  split.
  - intros Hfar.
    destruct (Z_gt_dec (Z.abs (price1 - price2)) 50000) as [_ | Hn]; [| lia].
    destruct (Rgt_dec (total1 - total2) 0) as [Hgt | Hle].
    + left. rewrite (Rabs_right (total1 - total2)) by lra.
      repeat split; [lra].
    + right. repeat split; [lra].
  - intros Hnear.
    destruct (Z_gt_dec (Z.abs (price1 - price2)) 50000) as [Hgt | _]; [lia|].
    split; reflexivity.
Qed.

(** The two totals can be equal at prices far apart: 1,360,000 and
    1,561,250 both borrow 1,249,000.  The [else] of app.py:143 then names
    Property 2, with a margin of 0. *)
Lemma tie_is_awarded_to_property_2 :
  compare_properties {| rate := 0.045; pop := 20000000 |} 1360000 1561250
  = Some (Property2Wins 0 (household_count 1360000 0.045 20000000)).
Proof.
  rewrite compare_properties_eq. cbv zeta. cbn [rate pop].
  assert (Hloan : loan 1360000 = loan 1561250).
  { rewrite (loan_mid 1360000) by lra. rewrite (loan_high 1561250) by lra.
    lra. }
  assert (Heq : household_count 1360000 0.045 20000000
                = household_count 1561250 0.045 20000000).
  { unfold household_count, income_at. now rewrite Hloan. }
  destruct (Z_gt_dec (Z.abs (1360000 - 1561250)) 50000) as [_ | Hn]; [| lia].
  rewrite <- Heq.
  destruct (Rgt_dec (household_count 1360000 0.045 20000000
                     - household_count 1360000 0.045 20000000) 0)
    as [Hgt | _]; [lra|].
  do 2 f_equal. rewrite Rminus_diag. apply Rabs_R0.
Qed.

(** C4.  The winner blocks miss the case of equal totals, at prices the
    number inputs produce on their 25,000 step.  In the National region
    (4.5%, 20,000,000 households) the prices 1,350,000 and 1,550,000 are
    200,000 apart and both borrow 1,240,000, so the two ["Total"] entries
    are one and the same number: neither property has the larger total.
    The [else] of app.py:143 and of app2.py:143 still reports Property 2
    as the winner, with a margin of 0, whichever of the two prices is
    entered first.  For prices within 50,000 (800,000 and 825,000) app.py
    shows its "Equal pricing" notice, while app2.py has no such branch and
    shows nothing. *)
Theorem tie_on_price_grid_names_property_2 :
  let national := {| rate := 0.045; pop := 20000000 |} in
  REGIONS !! "🇨🇦 National" = Some national /\
  exists total : R,
    total_of (calculate_buyer_breakdown national 1350000 20000000)
    = Some total /\
    total_of (calculate_buyer_breakdown national 1550000 20000000)
    = Some total /\
    total_of (App2.calculate_buyer_breakdown 1350000 20000000 0.045)
    = Some total /\
    total_of (App2.calculate_buyer_breakdown 1550000 20000000 0.045)
    = Some total /\
    compare_properties national 1350000 1550000
    = Some (Property2Wins 0 total) /\
    compare_properties national 1550000 1350000
    = Some (Property2Wins 0 total) /\
    App2.compare_properties national 1350000 1550000
    = Some (App2.Property2Wins 0) /\
    App2.compare_properties national 1550000 1350000
    = Some (App2.Property2Wins 0) /\
    compare_properties national 800000 825000 = Some EqualPricing /\
    App2.compare_properties national 800000 825000
    = Some App2.NothingShown.
Proof.
  cbv zeta. split; [reflexivity|].
  exists (household_count 1350000 0.045 20000000).
  assert (Hloan : loan 1550000 = loan 1350000).
  { rewrite (loan_mid 1350000) by lra. rewrite (loan_high 1550000) by lra.
    lra. }
  assert (Heq : household_count 1550000 0.045 20000000
                = household_count 1350000 0.045 20000000).
  { unfold household_count, income_at. now rewrite Hloan. }
  rewrite !total_of_breakdown, !total_of_breakdown2,
    !compare_properties_eq, !compare_properties2_eq.
  cbv zeta. cbn [rate pop]. rewrite !Heq, !Rminus_diag, !Rabs_R0.
  destruct (Z_gt_dec (Z.abs (1350000 - 1550000)) 50000) as [_ | Hn]; [| lia].
  destruct (Z_gt_dec (Z.abs (1550000 - 1350000)) 50000) as [_ | Hn]; [| lia].
  destruct (Z_gt_dec (Z.abs (800000 - 825000)) 50000) as [Hgt | _]; [lia|].
  destruct (Rgt_dec 0 0) as [Hgt | _]; [lra|].
  repeat split; reflexivity.
Qed.

(** ** The map tools *)

Lemma float_pow_pos (x y : R) : 0 < x -> Py.float_pow x y = Some (Rpower x y).
Proof.
  intros Hx. unfold Py.float_pow.
  destruct (Rlt_dec 0 x); [reflexivity | contradiction].
Qed.

Lemma Rpower_gt_1 (x y : R) : 1 < x -> 0 < y -> 1 < Rpower x y.
Proof.
  intros Hx Hy. unfold Rpower. rewrite <- exp_0.
  apply exp_increasing. apply Rmult_lt_0_compat; [assumption|].
  rewrite <- ln_1. apply ln_increasing; lra.
Qed.

Lemma radius_ratio_pos (radius_km : Z) :
  (0 < radius_km)%Z -> 0 < IZR radius_km / 50.
Proof. intros H. apply IZR_lt in H. lra. Qed.

Lemma radius_ratio_gt_1 (radius_km : Z) :
  (50 < radius_km)%Z -> 1 < IZR radius_km / 50.
Proof. intros H. apply IZR_lt in H. lra. Qed.

Lemma power_law_exceeds_population (population radius_km : Z) :
  (0 < population)%Z -> (50 < radius_km)%Z ->
  IZR population < IZR population * Rpower (IZR radius_km / 50) 0.7.
Proof.
  intros Hpop Hr. apply IZR_lt in Hpop.
  pose proof (Rpower_gt_1 (IZR radius_km / 50) 0.7
                (radius_ratio_gt_1 _ Hr) ltac:(lra)).
  nra.
Qed.

Lemma calc_stress_test_payment3_eq (price r : R) :
  App3.calc_stress_test_payment price r
  = Some (income_at price r 25, calculate_down_payment price).
Proof.
  pose proof (calc_stress_test_payment_eq price r 25 ltac:(lia)) as H.
  unfold calc_stress_test_payment in H.
  unfold App3.calc_stress_test_payment, App3.calculate_down_payment.
  destruct (Py.float_div _ _) as [m |]; [| discriminate H].
  cbn [mbind option_bind] in *. now inversion H.
Qed.

Lemma calculate_down_payment4_eq (price : R) :
  App4.calculate_down_payment price = calculate_down_payment price.
Proof.
  unfold App.calculate_down_payment, App4.calculate_down_payment.
  destruct (Rle_dec price 500000); [reflexivity|].
  destruct (Rle_dec price 1500000); [lra | reflexivity].
Qed.

Lemma calc_income_needed_eq (price r : R) :
  App4.calc_income_needed price r
  = Some (income_at price r 25, App4.calculate_down_payment price).
Proof.
  pose proof (calc_stress_test_payment_eq price r 25 ltac:(lia)) as H.
  unfold calc_stress_test_payment in H.
  unfold App4.calc_income_needed.
  rewrite !calculate_down_payment4_eq.
  destruct (Py.float_div _ _) as [m |]; [| discriminate H].
  cbn [mbind option_bind] in *. now inversion H.
Qed.

(** Walks a table built by inserts, entry by entry. *)
Ltac each_entry H :=
  repeat (rewrite lookup_insert in H; case_decide;
          [inversion H; simpl; lia|]);
  rewrite lookup_empty in H; discriminate H.

Lemma canadian_cities_populated (city : string) (entry : App3.city_data) :
  App3.CANADIAN_CITIES !! city = Some entry -> (0 < App3.pop entry)%Z.
Proof. unfold App3.CANADIAN_CITIES. intros H. each_entry H. Qed.

Lemma cities_populated (city : string) (entry : App4.city_data) :
  App4.CITIES !! city = Some entry -> (0 < App4.pop entry)%Z.
Proof. unfold App4.CITIES. intros H. each_entry H. Qed.

Lemma analyze3_eq
    (city : string) (entry : App3.city_data)
    (radius_km price : Z) (household_type : string) :
  App3.CANADIAN_CITIES !! city = Some entry ->
  (0 < radius_km)%Z ->
  exists a : App3.analysis,
    App3.analyze city radius_km price household_type = Some a /\
    App3.base_pop a = IZR (App3.pop entry) * Rpower (IZR radius_km / 50) 0.7 /\
    App3.potential_buyers a
    = App3.prob_affordable a * App3.base_pop a * App3.pop_mult a.
Proof.
  intros Hcity Hr. unfold App3.analyze.
  rewrite calc_stress_test_payment3_eq. cbn [mbind option_bind].
  rewrite Hcity, (float_pow_pos _ _ (radius_ratio_pos _ Hr)).
  repeat case_decide; cbn [mbind option_bind];
    eexists; (split; [reflexivity|]); split; reflexivity.
Qed.

Lemma analyze_with_eq
    (total_label city : string) (entry : App4.city_data)
    (radius_km price : Z) (buyer_type : string) :
  App4.CITIES !! city = Some entry ->
  (0 < radius_km)%Z ->
  exists a : App4.analysis,
    App4.analyze_with total_label city radius_km price buyer_type = Some a /\
    App4.base_pop a = IZR (App4.pop entry) * Rpower (IZR radius_km / 50) 0.7 /\
    App4.buyers_in_radius a
    = App4.prob_affordable a * App4.base_pop a * App4.pop_factor a.
Proof.
  intros Hcity Hr. unfold App4.analyze_with.
  rewrite Hcity. cbn [mbind option_bind].
  rewrite calc_income_needed_eq. cbn [mbind option_bind].
  rewrite (float_pow_pos _ _ (radius_ratio_pos _ Hr)).
  repeat case_decide; cbn [mbind option_bind];
    eexists; (split; [reflexivity|]); split; reflexivity.
Qed.

(** Closes one script's clause of the radius theorem from the shape lemma
    [Hshape] of its run and the positivity [Hpop] of the city's population. *)
Ltac unclamped Hshape Hpop :=
  let a := fresh "a" in
  let Hrun := fresh "Hrun" in
  let Hbase := fresh "Hbase" in
  let Hbuyers := fresh "Hbuyers" in
  destruct Hshape as (a & Hrun & Hbase & Hbuyers);
  exists a; repeat split; try assumption;
  let Hwide := fresh "Hwide" in
  intros Hwide; rewrite Hbase;
  apply power_law_exceeds_population; [exact Hpop | exact Hwide].

(** C8.  In each map tool (app3.py, app4.py, app5.py), for every city of
    its table and every positive radius, the population that is multiplied
    into the buyer count is [pop * (radius_km / 50)^0.7].  Nothing clamps
    it: beyond 50 km it exceeds the city's population. *)
Theorem radius_population_is_unclamped_power_law
    (city : string) (radius_km price : Z) (buyer_type : string) :
  (0 < radius_km)%Z ->
  (forall entry : App3.city_data,
     App3.CANADIAN_CITIES !! city = Some entry ->
     exists a : App3.analysis,
       App3.analyze city radius_km price buyer_type = Some a /\
       App3.base_pop a
       = IZR (App3.pop entry) * Rpower (IZR radius_km / 50) 0.7 /\
       App3.potential_buyers a
       = App3.prob_affordable a * App3.base_pop a * App3.pop_mult a /\
       ((50 < radius_km)%Z -> IZR (App3.pop entry) < App3.base_pop a)) /\
  (forall entry : App4.city_data,
     App4.CITIES !! city = Some entry ->
     exists a : App4.analysis,
       App4.analyze city radius_km price buyer_type = Some a /\
       App4.base_pop a
       = IZR (App4.pop entry) * Rpower (IZR radius_km / 50) 0.7 /\
       App4.buyers_in_radius a
       = App4.prob_affordable a * App4.base_pop a * App4.pop_factor a /\
       ((50 < radius_km)%Z -> IZR (App4.pop entry) < App4.base_pop a)) /\
  (forall entry : App4.city_data,
     App5.CITIES !! city = Some entry ->
     exists a : App4.analysis,
       App5.analyze city radius_km price buyer_type = Some a /\
       App4.base_pop a
       = IZR (App4.pop entry) * Rpower (IZR radius_km / 50) 0.7 /\
       App4.buyers_in_radius a
       = App4.prob_affordable a * App4.base_pop a * App4.pop_factor a /\
       ((50 < radius_km)%Z -> IZR (App4.pop entry) < App4.base_pop a)).
Proof.
  intros Hr. split; [| split].
  - intros entry Hcity.
    pose proof (analyze3_eq city entry radius_km price buyer_type Hcity Hr)
      as Hshape.
    pose proof (canadian_cities_populated city entry Hcity) as Hpop.
    unclamped Hshape Hpop.
  - intros entry Hcity.
    pose proof (analyze_with_eq "Total Market" city entry radius_km price
                  buyer_type Hcity Hr) as Hshape.
    pose proof (cities_populated city entry Hcity) as Hpop.
    unclamped Hshape Hpop.
  - intros entry Hcity.
    pose proof (analyze_with_eq "Total" city entry radius_km price
                  buyer_type Hcity Hr) as Hshape.
    pose proof (cities_populated city entry Hcity) as Hpop.
    unclamped Hshape Hpop.
Qed.

(** Toronto at the slider's maximum of 100 km: more than its 6,400,000. *)
Lemma radius_population_is_unclamped_power_law_witness :
  exists a : App4.analysis,
    App4.analyze "Toronto" 100 800000 "Total Market" = Some a /\
    App4.base_pop a = IZR 6400000 * Rpower (IZR 100 / 50) 0.7 /\
    IZR 6400000 < App4.base_pop a.
Proof.
  destruct (proj1 (proj2 (radius_population_is_unclamped_power_law
                            "Toronto" 100 800000 "Total Market" ltac:(lia)))
              {| App4.lat := 43.65; App4.lon := -79.38;
                 App4.pop := 6400000; App4.rate := 0.047 |}
              eq_refl)
    as (a & Hrun & Hbase & _ & Hwide).
  exists a. split; [exact Hrun|]. split; [exact Hbase|]. apply Hwide. lia.
Defined.

(** ** The two down payment rules *)

(** C9.  The rule that writes [500000 * 0.05] (app.py, app2.py, app3.py)
    and the rule that writes [25000] (app4.py, app5.py) return the same
    amount for every price: as real numbers, and bit for bit on binary64,
    where [500000 * 0.05] rounds to exactly [25000.0]. *)
Theorem down_payment_variants_agree :
  (forall price : R,
     App.calculate_down_payment price = App4.calculate_down_payment price) /\
  (forall price : float,
     Binary64.calculate_down_payment_closed price
     = Binary64.calculate_down_payment_literal price).
Proof.
  split.
  - intros price. symmetry. apply calculate_down_payment4_eq.
  - intros price.
    unfold Binary64.calculate_down_payment_closed,
      Binary64.calculate_down_payment_literal.
    assert (Hconst : (500000 * 0.05)%float = 25000%float)
      by (vm_compute; reflexivity).
    rewrite Hconst. reflexivity.
Qed.

(** * Further properties of the code *)

Import Auxiliary.

Lemma geometric_closed (q : R) (n : nat) : (q - 1) * geometric q n = q ^ n - 1.
Proof.
  induction n as [| k IH]; simpl; [lra|].
  rewrite Rmult_plus_distr_l, IH. lra.
Qed.

Lemma geometric_pos (q : R) (n : nat) : 0 < q -> (0 < n)%nat -> 0 < geometric q n.
Proof.
  intros Hq Hn. induction n as [| k IH]; [lia|].
  simpl. pose proof (pow_lt q k Hq).
  destruct k as [| k']; [simpl; lra|].
  assert (0 < geometric q (S k')) by (apply IH; lia). lra.
Qed.

Lemma pow_strict_incr (x y : R) (d : nat) :
  0 < x -> x < y -> (0 < d)%nat -> x ^ d < y ^ d.
Proof.
  intros Hx Hxy Hd. induction d as [| k IH]; [lia|].
  destruct k as [| k']; [simpl; lra|].
  assert (Hk : x ^ S k' < y ^ S k') by (apply IH; lia).
  assert (0 < x ^ S k') by (apply pow_lt; lra).
  change (x * x ^ S k' < y * y ^ S k'). nra.
Qed.

Lemma geometric_cross (q1 q2 : R) (m n : nat) :
  0 < q1 -> q1 < q2 -> (n <= m)%nat ->
  q1 ^ m * geometric q2 n <= q2 ^ m * geometric q1 n /\
  ((0 < n)%nat -> q1 ^ m * geometric q2 n < q2 ^ m * geometric q1 n).
Proof.
  intros Hq1 Hq Hnm. induction n as [| k IH].
  - simpl. split; [lra | lia].
  - destruct IH as [IHle _]; [lia|].
    assert (Hterm : q1 ^ m * q2 ^ k < q2 ^ m * q1 ^ k).
    { replace m with (k + (m - k))%nat by lia. rewrite !pow_add.
      assert (Hd : q1 ^ (m - k) < q2 ^ (m - k))
        by (apply pow_strict_incr; [assumption | assumption | lia]).
      assert (Hpos : 0 < q1 ^ k * q2 ^ k).
      { apply Rmult_lt_0_compat; apply pow_lt; lra. }
      replace (q1 ^ k * q1 ^ (m - k) * q2 ^ k)
        with (q1 ^ k * q2 ^ k * q1 ^ (m - k)) by ring.
      replace (q2 ^ k * q2 ^ (m - k) * q1 ^ k)
        with (q1 ^ k * q2 ^ k * q2 ^ (m - k)) by ring.
      now apply Rmult_lt_compat_l. }
    simpl. split; [| intros _]; lra.
Qed.

Lemma annuity_as_ratio (s : R) (n : Z) :
  0 < s -> (0 < n)%Z ->
  annuity s n
  = (1 + s / 12) ^ Z.to_nat n / geometric (1 + s / 12) (Z.to_nat n).
Proof.
  intros Hs Hn. unfold annuity.
  rewrite <- (Z2Nat.id n) at 1 2 by lia. rewrite <- !pow_powerRZ.
  set (q := 1 + s / 12). set (k := Z.to_nat n).
  assert (Hk : (0 < k)%nat) by (unfold k; lia).
  pose proof (geometric_closed q k) as Hc.
  pose proof (geometric_pos q k ltac:(unfold q; lra) Hk) as Hg.
  rewrite <- Hc. replace (s / 12) with (q - 1) by (unfold q; lra).
  field. split; [lra | unfold q; lra].
Qed.

Lemma annuity_strict_mono_rate (s1 s2 : R) (n : Z) :
  0 < s1 -> s1 < s2 -> (0 < n)%Z -> annuity s1 n < annuity s2 n.
Proof.
  intros Hs1 Hs Hn.
  rewrite !annuity_as_ratio by (assumption || lra).
  set (k := Z.to_nat n). assert (Hk : (0 < k)%nat) by (unfold k; lia).
  set (q1 := 1 + s1 / 12). set (q2 := 1 + s2 / 12).
  assert (Hq1 : 0 < q1) by (unfold q1; lra).
  assert (Hq : q1 < q2) by (unfold q1, q2; lra).
  pose proof (geometric_pos q1 k Hq1 Hk) as Hg1.
  pose proof (geometric_pos q2 k ltac:(lra) Hk) as Hg2.
  destruct (geometric_cross q1 q2 k k Hq1 Hq ltac:(lia)) as [_ Hlt].
  specialize (Hlt Hk).
  apply Rmult_lt_reg_r with (geometric q1 k * geometric q2 k).
  { now apply Rmult_lt_0_compat. }
  replace (q1 ^ k / geometric q1 k * (geometric q1 k * geometric q2 k))
    with (q1 ^ k * geometric q2 k) by (field; lra).
  replace (q2 ^ k / geometric q2 k * (geometric q1 k * geometric q2 k))
    with (q2 ^ k * geometric q1 k) by (field; lra).
  exact Hlt.
Qed.

(** ** More on the income distribution *)
Lemma tanh_strict_monotone (x y : R) : x < y -> tanh x < tanh y.
Proof.
  intros Hxy. rewrite !tanh_as_ratio.
  pose proof (exp_pos x) as Ha. pose proof (exp_pos (- x)) as Ha'.
  pose proof (exp_pos y) as Hb. pose proof (exp_pos (- y)) as Hb'.
  assert (Hab : exp x < exp y) by now apply exp_increasing.
  assert (Hba : exp (- y) < exp (- x)) by (apply exp_increasing; lra).
  apply Rmult_lt_reg_r with ((exp x + exp (- x)) * (exp y + exp (- y))).
  { apply Rmult_lt_0_compat; lra. }
  replace ((exp x - exp (- x)) / (exp x + exp (- x)) *
           ((exp x + exp (- x)) * (exp y + exp (- y))))
    with ((exp x - exp (- x)) * (exp y + exp (- y))) by (field; lra).
  replace ((exp y - exp (- y)) / (exp y + exp (- y)) *
           ((exp x + exp (- x)) * (exp y + exp (- y))))
    with ((exp y - exp (- y)) * (exp x + exp (- x))) by (field; lra).
  nra.
Qed.

Lemma tanh_odd (x : R) : tanh (- x) = - tanh x.
Proof.
  rewrite !tanh_as_ratio. rewrite Ropp_involutive.
  pose proof (exp_pos x). pose proof (exp_pos (- x)).
  field. lra.
Qed.

Lemma tanh_zero : tanh 0 = 0.
Proof. rewrite tanh_as_ratio, Ropp_0, exp_0. lra. Qed.

Lemma sqrt_two_thirds_pos : 0 < sqrt (2 / 3).
Proof. apply sqrt_lt_R0. lra. Qed.

Lemma standardize_strict (x y : R) :
  0 < x -> x < y -> standardize x < standardize y.
Proof.
  intros Hx Hxy. unfold standardize.
  apply Rmult_lt_compat_l; [apply sqrt_two_thirds_pos|].
  unfold sigma_default, Rdiv. apply Rmult_lt_compat_r.
  - apply Rinv_0_lt_compat. lra.
  - pose proof (ln_increasing x y Hx Hxy). lra.
Qed.

Lemma lognorm_cdf_strict (x y : R) :
  0 < x -> x < y -> lognorm_cdf x < lognorm_cdf y.
Proof.
  intros Hx Hxy.
  rewrite !lognorm_cdf_pos_eq by lra.
  pose proof (standardize_strict x y Hx Hxy) as Hz. unfold standardize in Hz.
  pose proof (tanh_strict_monotone _ _ Hz). lra.
Qed.

Lemma lognorm_cdf_pos (x : R) : 0 < x -> 0 < lognorm_cdf x.
Proof.
  intros Hx. rewrite lognorm_cdf_pos_eq by assumption.
  pose proof
    (tanh_bounds (sqrt (2 / 3) * ((ln x - mu_default) / sigma_default))).
  lra.
Qed.

Lemma survival_strict (x y : R) : 0 < x -> x < y -> survival y < survival x.
Proof.
  intros Hx Hxy. unfold survival.
  pose proof (lognorm_cdf_strict x y Hx Hxy).
  pose proof (lognorm_cdf_range x) as [_ Hx1].
  pose proof (lognorm_cdf_range y) as [_ Hy1].
  rewrite !Rmax_right by lra. lra.
Qed.

(** X1.  On positive incomes [lognorm_cdf] is strictly increasing and stays
    strictly between 0 and 1. *)
Theorem lognorm_cdf_strict_on_support (x y : R) :
  0 < x -> x < y ->
  0 < lognorm_cdf x /\ lognorm_cdf x < lognorm_cdf y /\ lognorm_cdf y < 1.
Proof.
  intros Hx Hxy. split; [now apply lognorm_cdf_pos|].
  split; [now apply lognorm_cdf_strict | apply lognorm_cdf_range].
Qed.

Lemma lognorm_cdf_strict_on_support_witness :
  0 < lognorm_cdf 100000 /\
  lognorm_cdf 100000 < lognorm_cdf 200000 /\ lognorm_cdf 200000 < 1.
Proof. apply lognorm_cdf_strict_on_support; lra. Defined.

(** X2.  Half of the households are below [exp(mu)]: the value there is
    1/2, and incomes [k] times above and [k] times below [exp(mu)] have
    values that add up to 1. *)
Theorem lognorm_cdf_median_symmetry :
  lognorm_cdf (exp mu_default) = 1 / 2 /\
  (forall k : R,
     0 < k ->
     lognorm_cdf (exp mu_default * k) + lognorm_cdf (exp mu_default / k) = 1).
Proof.
  split.
  - rewrite lognorm_cdf_pos_eq by apply exp_pos.
    rewrite ln_exp. replace (mu_default - mu_default) with 0 by lra.
    unfold Rdiv at 2. rewrite Rmult_0_l, Rmult_0_r, tanh_zero. lra.
  - intros k Hk. pose proof (exp_pos mu_default) as He.
    assert (Hinv : 0 < / k) by now apply Rinv_0_lt_compat.
    rewrite !lognorm_cdf_pos_eq
      by (unfold Rdiv; apply Rmult_lt_0_compat; assumption).
    assert (Hdiv : ln (exp mu_default / k) = mu_default - ln k).
    { unfold Rdiv. rewrite ln_mult, ln_Rinv, ln_exp by assumption. lra. }
    rewrite Hdiv, ln_mult, ln_exp by assumption.
    replace (sqrt (2 / 3) * ((mu_default - ln k - mu_default) / sigma_default))
      with (- (sqrt (2 / 3) * ((mu_default + ln k - mu_default) / sigma_default)))
      by (unfold Rdiv; ring).
    rewrite tanh_odd. lra.
Qed.

(** X3.  The clamp in [max(0, 1 - lognorm_cdf(income))] never acts: the
    difference is positive for every income.  So the couples row of
    app4.py, written without [max], equals the one of app5.py, written
    with it. *)
Theorem survival_clamp_inactive :
  (forall income : R,
     Rmax 0 (1 - lognorm_cdf income) = 1 - lognorm_cdf income /\
     0 < 1 - lognorm_cdf income) /\
  (forall prob_affordable base_pop income_single : R,
     App5.buyer_types prob_affordable base_pop income_single
     = take 2 (App4.buyer_breakdown prob_affordable base_pop income_single)).
Proof.
  assert (Hclamp : forall income : R,
    Rmax 0 (1 - lognorm_cdf income) = 1 - lognorm_cdf income /\
    0 < 1 - lognorm_cdf income).
  { intros income. pose proof (lognorm_cdf_range income) as [H0 H1].
    split; [apply Rmax_right|]; lra. }
  split; [exact Hclamp|].
  intros prob_affordable base_pop income_single.
  unfold App5.buyer_types, App4.buyer_breakdown. cbn [take].
  now rewrite (proj1 (Hclamp (income_single * 0.75))).
Qed.

(** ** The density of app2.py *)
Lemma sqrt_two_pi_pos : 0 < sqrt (2 * PI).
Proof. apply sqrt_lt_R0. pose proof PI_RGT_0. lra. Qed.

Lemma lognorm_pdf_eq (x : R) :
  0 < x ->
  App2.lognorm_pdf x
  = Some (exp (log_density (ln x)) / (sigma_default * sqrt (2 * PI))).
Proof.
  intros Hx. unfold App2.lognorm_pdf, App2.lognorm_pdf_with.
  destruct (Rlt_dec 0 x) as [_ | Hn]; [| contradiction].
  f_equal. unfold log_density, Rminus at 2. rewrite exp_plus, exp_Ropp.
  rewrite (exp_ln x Hx).
  pose proof sqrt_two_pi_pos. unfold sigma_default.
  field. repeat split; lra.
Qed.

Lemma log_density_max (t : R) :
  log_density t <= log_density (mu_default - sigma_default ^ 2).
Proof.
  unfold log_density, mu_default, sigma_default.
  assert (H : 0 <= (t - 10.45 + 0.95 ^ 2) ^ 2) by apply pow2_ge_0.
  apply Rminus_le. 
  replace (- (t - 10.45) ^ 2 / (2 * 0.95 ^ 2) - t -
           (- (10.45 - 0.95 ^ 2 - 10.45) ^ 2 / (2 * 0.95 ^ 2) - (10.45 - 0.95 ^ 2)))
    with (- ((t - 10.45 + 0.95 ^ 2) ^ 2) / (2 * 0.95 ^ 2)) by (field; lra).
  apply Rle_trans with (0 / (2 * 0.95 ^ 2)); [| lra].
  apply Rmult_le_compat_r; [| lra].
  left. apply Rinv_0_lt_compat. lra.
Qed.

(** X4.  For a positive income [lognorm_pdf] returns a positive density,
    and no density exceeds the one at [exp(mu - sigma^2)], the income
    where the chart's [np.max] normalisation finds its peak. *)
Theorem lognorm_pdf_positive_with_mode (x : R) :
  0 < x ->
  exists density peak : R,
    App2.lognorm_pdf x = Some density /\
    App2.lognorm_pdf (exp (mu_default - sigma_default ^ 2)) = Some peak /\
    0 < density <= peak.
Proof.
  intros Hx. eexists _, _.
  split; [now apply lognorm_pdf_eq|].
  split; [apply lognorm_pdf_eq, exp_pos|].
  rewrite ln_exp.
  pose proof sqrt_two_pi_pos as Hs.
  assert (Hden : 0 < / (sigma_default * sqrt (2 * PI))).
  { apply Rinv_0_lt_compat. unfold sigma_default. lra. }
  unfold Rdiv. split.
  - apply Rmult_lt_0_compat; [apply exp_pos | assumption].
  - apply Rmult_le_compat_r; [lra|].
    destruct (log_density_max (ln x)) as [Hlt | Heq];
      [left; now apply exp_increasing | right; now rewrite Heq].
Qed.

Lemma lognorm_pdf_positive_with_mode_witness :
  exists density peak : R,
    App2.lognorm_pdf 100000 = Some density /\
    App2.lognorm_pdf (exp (mu_default - sigma_default ^ 2)) = Some peak /\
    0 < density <= peak.
Proof. apply lognorm_pdf_positive_with_mode. lra. Defined.

(** ** More on the stress test *)





(** X7.  For a positive price and a term of at least one year, raising the
    contract rate changes nothing while the higher rate is at most 3.25%
    (the floor of 5.25% applies to both) and strictly raises the required
    income once it is above 3.25%. *)
Theorem required_income_monotone_in_rate (price c1 c2 : R) (n : Z) :
  0 < price -> (1 <= n)%Z -> c1 < c2 ->
  exists i1 i2 : R,
    required_income price c1 n = Some i1 /\
    required_income price c2 n = Some i2 /\
    (c2 <= 0.0325 -> i1 = i2) /\
    (0.0325 < c2 -> i1 < i2).
Proof.
  intros Hp Hn Hc.
  exists (income_at price c1 n), (income_at price c2 n).
  split; [apply required_income_eq; lia|].
  split; [apply required_income_eq; lia|].
  pose proof (loan_pos price Hp) as Hloan.
  unfold income_at. split.
  - intros Hfloor. rewrite !Rmax_left by lra. reflexivity.
  - intros Hdriven.
    assert (Hs : Rmax 0.0525 (c1 + 0.02) < Rmax 0.0525 (c2 + 0.02)).
    { rewrite (Rmax_right 0.0525 (c2 + 0.02)) by lra.
      apply Rmax_lub_lt; lra. }
    pose proof (stress_rate_floor c1) as Hs1.
    assert (Ha : annuity (Rmax 0.0525 (c1 + 0.02)) (n * 12)
                 < annuity (Rmax 0.0525 (c2 + 0.02)) (n * 12)).
    { apply annuity_strict_mono_rate; [lra | assumption | lia]. }
    assert (loan price * annuity (Rmax 0.0525 (c1 + 0.02)) (n * 12)
            < loan price * annuity (Rmax 0.0525 (c2 + 0.02)) (n * 12))
      by now apply Rmult_lt_compat_l.
    lra.
Qed.

Lemma required_income_monotone_in_rate_witness :
  exists i1 i2 : R,
    required_income 800000 0.045 25 = Some i1 /\
    required_income 800000 0.049 25 = Some i2 /\ i1 < i2.
Proof.
  destruct (required_income_monotone_in_rate 800000 0.045 0.049 25
              ltac:(lra) ltac:(lia) ltac:(lra))
    as (i1 & i2 & H1 & H2 & _ & Hlt).
  exists i1, i2. repeat split; [exact H1 | exact H2 | apply Hlt; lra].
Defined.

Lemma annuity_bounds (s : R) (n : Z) :
  0 < s -> (0 < n)%Z -> s / 12 < annuity s n <= s / 12 + / IZR n.
Proof.
  intros Hs Hn. unfold annuity.
  assert (Hq : 1 < 1 + s / 12) by lra.
  pose proof (powerRZ_gt_1 _ _ Hq Hn) as Hp.
  assert (Hbern : 1 + IZR n * (s / 12) <= powerRZ (1 + s / 12) n).
  { rewrite <- (Z2Nat.id n) at 2 by lia. rewrite <- pow_powerRZ.
    rewrite <- (Z2Nat.id n) at 1 by lia. rewrite <- INR_IZR_INZ.
    apply poly. lra. }
  set (u := powerRZ (1 + s / 12) n) in *.
  assert (HnR : 0 < IZR n) by now apply IZR_lt.
  assert (Hsplit : s / 12 * u / (u - 1) = s / 12 + s / 12 / (u - 1))
    by (field; lra).
  rewrite Hsplit.
  assert (Hfrac : 0 < s / 12 / (u - 1)) by (apply Rdiv_lt_0_compat; lra).
  split; [lra|].
  apply Rplus_le_compat_l.
  apply Rmult_le_reg_r with ((u - 1) * IZR n).
  { apply Rmult_lt_0_compat; lra. }
  replace (s / 12 / (u - 1) * ((u - 1) * IZR n)) with (IZR n * (s / 12))
    by (field; lra).
  replace (/ IZR n * ((u - 1) * IZR n)) with (u - 1) by (field; lra).
  lra.
Qed.

(** X8.  The required income lies between the income that would carry the
    interest alone, [loan * stress_rate / 0.39], and the income that would
    carry interest plus a straight-line repayment,
    [loan * (stress_rate + 1 / amort_years) / 0.39]. *)
Theorem required_income_between_interest_and_straight_line
    (price c : R) (n : Z) :
  0 < price -> (1 <= n)%Z ->
  exists income : R,
    required_income price c n = Some income /\
    let borrowed := price - calculate_down_payment price in
    let stress_rate := Rmax 0.0525 (c + 0.02) in
    borrowed * stress_rate / 0.39 < income /\
    income <= borrowed * (stress_rate + / IZR n) / 0.39.
Proof.
  intros Hp Hn. exists (income_at price c n).
  split; [apply required_income_eq; lia|].
  cbv zeta. fold (loan price).
  pose proof (loan_pos price Hp) as Hloan.
  pose proof (stress_rate_floor c) as Hs.
  destruct (annuity_bounds (Rmax 0.0525 (c + 0.02)) (n * 12)
              ltac:(lra) ltac:(lia)) as [Hlo Hhi].
  assert (Hinv : / IZR (n * 12) = / IZR n / 12).
  { rewrite mult_IZR. assert (0 < IZR n) by (apply IZR_lt; lia).
    field. lra. }
  rewrite Hinv in Hhi. unfold income_at.
  set (a := annuity (Rmax 0.0525 (c + 0.02)) (n * 12)) in *.
  set (s := Rmax 0.0525 (c + 0.02)) in *.
  assert (HnR : 0 < / IZR n).
  { apply Rinv_0_lt_compat, IZR_lt. lia. }
  set (k := / IZR n) in *.
  split.
  - apply Rmult_lt_reg_r with 0.39; [lra|].
    unfold Rdiv. rewrite !Rmult_assoc, !Rinv_l by lra. nra.
  - apply Rmult_le_reg_r with 0.39; [lra|].
    unfold Rdiv. rewrite !Rmult_assoc, !Rinv_l by lra. nra.
Qed.

Lemma required_income_between_interest_and_straight_line_witness :
  exists income : R,
    required_income 800000 0.045 25 = Some income /\
    745000 * 0.065 / 0.39 < income /\
    income <= 745000 * (0.065 + / 25) / 0.39.
Proof.
  destruct (required_income_between_interest_and_straight_line
              800000 0.045 25 ltac:(lra) ltac:(lia))
    as (income & Hres & Hlo & Hhi).
  exists income. split; [exact Hres|].
  replace (Rmax 0.0525 (0.045 + 0.02)) with 0.065 in *
    by (rewrite Rmax_right; lra).
  pose proof (loan_mid 800000 ltac:(lra)) as Hloan. unfold loan in Hloan.
  replace (800000 - calculate_down_payment 800000) with 745000 in * by lra.
  split; assumption.
Defined.

(** ** More on the down payment *)

(** X9.  A dearer home never needs a smaller down payment:
    [calculate_down_payment] is strictly increasing in the price. *)
Theorem down_payment_strictly_increasing (p1 p2 : R) :
  p1 < p2 -> calculate_down_payment p1 < calculate_down_payment p2.
Proof.
  intros Hlt. unfold calculate_down_payment.
  destruct (Rle_dec p1 500000), (Rle_dec p2 500000),
    (Rle_dec p1 1500000), (Rle_dec p2 1500000); lra.
Qed.

Lemma down_payment_strictly_increasing_witness :
  calculate_down_payment 1500000 < calculate_down_payment 1600000.
Proof. apply down_payment_strictly_increasing. lra. Defined.

(** X10.  For a positive price the down payment is between 5% and 20% of
    the price, so the loan is between 80% and 95% of it; up to 1,500,000
    the down payment is at most a twelfth of the price. *)
Theorem down_payment_share_bounds (price : R) :
  0 < price ->
  0.05 * price <= calculate_down_payment price <= 0.20 * price /\
  0.80 * price <= price - calculate_down_payment price <= 0.95 * price /\
  (price <= 1500000 -> calculate_down_payment price <= 0.25 / 3 * price).
Proof.
  intros Hp. unfold calculate_down_payment.
  destruct (Rle_dec price 500000), (Rle_dec price 1500000);
    repeat split; intros; lra.
Qed.

Lemma down_payment_share_bounds_witness :
  0.05 * 800000 <= calculate_down_payment 800000 <= 0.20 * 800000.
Proof. apply (down_payment_share_bounds 800000). lra. Defined.

(** X11.  The rule is continuous at 500,000, where the middle tier adds 10%
    of the excess to what 500,000 needs, and it jumps at 1,500,000: every
    price above needs over 175,000 more than 1,500,000 does. *)
Theorem down_payment_step_at_top_tier (price : R) :
  (500000 < price <= 1500000 ->
   calculate_down_payment price - calculate_down_payment 500000
   = 0.10 * (price - 500000)) /\
  (1500000 < price ->
   175000 < calculate_down_payment price - calculate_down_payment 1500000).
Proof.
  unfold calculate_down_payment.
  destruct (Rle_dec 500000 500000) as [_ | Hn]; [| lra].
  destruct (Rle_dec 1500000 500000) as [Hbad | _]; [lra|].
  destruct (Rle_dec 1500000 1500000) as [_ | Hn]; [| lra].
  destruct (Rle_dec price 500000), (Rle_dec price 1500000);
    split; intros; lra.
Qed.

(** ** More on the buyer breakdown *)
Lemma income_at_pos (price c : R) (n : Z) :
  0 < price -> (1 <= n)%Z -> 0 < income_at price c n.
Proof.
  intros Hp Hn. rewrite income_at_scale.
  apply Rmult_lt_0_compat; [now apply loan_pos | now apply income_factor_pos].
Qed.

Lemma income_at_strict_in_loan (p1 p2 c : R) (n : Z) :
  (1 <= n)%Z -> loan p1 < loan p2 -> income_at p1 c n < income_at p2 c n.
Proof.
  intros Hn Hloan. rewrite !income_at_scale.
  apply Rmult_lt_compat_r; [now apply income_factor_pos | assumption].
Qed.

Lemma household_count_strict (p1 p2 r : R) (region_pop : Z) :
  0 < p1 -> loan p1 < loan p2 -> (0 < region_pop)%Z ->
  household_count p2 r region_pop < household_count p1 r region_pop.
Proof.
  intros Hp Hloan Hpop. apply IZR_lt in Hpop.
  pose proof (income_at_pos p1 r 25 Hp ltac:(lia)) as Hinc.
  pose proof (income_at_strict_in_loan p1 p2 r 25 ltac:(lia) Hloan) as Hlt.
  pose proof (survival_strict _ _ Hinc Hlt) as Hs.
  assert (Hc : survival (income_at p2 r 25 * 0.75)
               < survival (income_at p1 r 25 * 0.75))
    by (apply survival_strict; lra).
  unfold household_count. nra.
Qed.

Lemma household_count_loan (p1 p2 r : R) (region_pop : Z) :
  loan p1 = loan p2 ->
  household_count p1 r region_pop = household_count p2 r region_pop.
Proof. intros H. unfold household_count, income_at. now rewrite H. Qed.

Lemma segment_count_bounds (income : R) (region_pop : Z) (share : R) :
  (0 <= region_pop)%Z -> 0 < share ->
  0 <= survival income * IZR region_pop * share <= share * IZR region_pop.
Proof.
  intros Hpop Hshare. apply IZR_le in Hpop.
  pose proof (survival_range income) as [Hs0 Hs1].
  assert (H0 : 0 <= survival income * IZR region_pop)
    by (apply Rmult_le_pos; lra).
  assert (H1 : survival income * IZR region_pop <= 1 * IZR region_pop)
    by (apply Rmult_le_compat_r; lra).
  split.
  - apply Rmult_le_pos; lra.
  - rewrite (Rmult_comm share). apply Rmult_le_compat_r; lra.
Qed.

(** X12.  With a non-negative population every entry of the breakdown is
    non-negative and at most its segment's share of the population, and
    the total is at most the population. *)
Theorem breakdown_counts_within_population
    (rd : region) (price : R) (region_pop : Z) :
  (0 <= region_pop)%Z ->
  exists (buyers : gmap string R) (income down : R)
         (single couple first_time repeat_ total : R),
    calculate_buyer_breakdown rd price region_pop
    = Some (buyers, income, down) /\
    buyers !! "Single" = Some single /\
    buyers !! "Couple" = Some couple /\
    buyers !! "First-Time" = Some first_time /\
    buyers !! "Repeat" = Some repeat_ /\
    buyers !! "Total" = Some total /\
    0 <= single <= 0.40 * IZR region_pop /\
    0 <= couple <= 0.60 * IZR region_pop /\
    0 <= first_time <= 0.45 * IZR region_pop /\
    0 <= repeat_ <= 0.55 * IZR region_pop /\
    0 <= total <= IZR region_pop.
Proof.
  intros Hpop. rewrite calculate_buyer_breakdown_eq.
  eexists _, _, _, _, _, _, _, _.
  split; [reflexivity|].
  split; [apply breakdown_single|].
  split; [apply breakdown_couple|].
  split; [apply breakdown_first_time|].
  split; [apply breakdown_repeat|].
  split; [apply breakdown_total|].
  pose proof (segment_count_bounds (income_at price (rate rd) 25)
                region_pop 0.40 Hpop ltac:(lra)) as Hs.
  pose proof (segment_count_bounds (income_at price (rate rd) 25 * 0.75)
                region_pop 0.60 Hpop ltac:(lra)) as Hc.
  pose proof (segment_count_bounds (income_at price (rate rd) 30)
                region_pop 0.45 Hpop ltac:(lra)) as Hf.
  pose proof (segment_count_bounds (income_at price (rate rd) 25)
                region_pop 0.55 Hpop ltac:(lra)) as Hr.
  unfold household_count. repeat split; lra.
Qed.

Lemma breakdown_counts_within_population_witness :
  exists (buyers : gmap string R) (income down total : R),
    calculate_buyer_breakdown
      {| rate := 0.045; pop := 20000000 |} 800000 20000000
    = Some (buyers, income, down) /\
    buyers !! "Total" = Some total /\
    0 <= total <= 20000000.
Proof.
  destruct (breakdown_counts_within_population
              {| rate := 0.045; pop := 20000000 |} 800000 20000000
              ltac:(lia))
    as (buyers & income & down & s & c & f & r & total
        & Hres & _ & _ & _ & _ & Htotal & _ & _ & _ & _ & Hbound).
  exists buyers, income, down, total. auto.
Defined.

(** X13.  The repeat segment is stress-tested over the same 25 years as the
    single segment, so its count is always 0.55/0.40 = 1.375 times the
    single count; the first-time count, over 30 years, is at least
    0.45/0.40 = 1.125 times the single count. *)
Theorem breakdown_history_segments
    (rd : region) (price : R) (region_pop : Z) :
  0 <= price -> (0 <= region_pop)%Z ->
  exists (buyers : gmap string R) (income down : R)
         (single first_time repeat_ : R),
    calculate_buyer_breakdown rd price region_pop
    = Some (buyers, income, down) /\
    buyers !! "Single" = Some single /\
    buyers !! "First-Time" = Some first_time /\
    buyers !! "Repeat" = Some repeat_ /\
    repeat_ = 1.375 * single /\
    1.125 * single <= first_time.
Proof.
  intros Hp Hpop. rewrite calculate_buyer_breakdown_eq.
  eexists _, _, _, _, _, _.
  split; [reflexivity|].
  split; [apply breakdown_single|].
  split; [apply breakdown_first_time|].
  split; [apply breakdown_repeat|].
  split; [lra|].
  apply IZR_le in Hpop.
  assert (Hinc : income_at price (rate rd) 30 <= income_at price (rate rd) 25).
  { rewrite !income_at_scale.
    apply Rmult_le_compat_l; [now apply loan_nonneg|].
    pose proof (stress_rate_floor (rate rd)) as Hs.
    assert (annuity (Rmax 0.0525 (rate rd + 0.02)) (30 * 12)
            < annuity (Rmax 0.0525 (rate rd + 0.02)) (25 * 12)).
    { apply annuity_strict_antitone; [lra | lia | lia]. }
    lra. }
  pose proof (survival_antitone _ _ Hinc) as Hsurv.
  pose proof (survival_range (income_at price (rate rd) 25)) as [H25 _].
  nra.
Qed.

(** X14.  The breakdown of app2.py, given the region's rate, is the
    breakdown of app.py, which reads the rate from the selected region. *)
Theorem breakdown_variants_agree
    (rd : region) (price : R) (region_pop : Z) :
  App2.calculate_buyer_breakdown price region_pop (rate rd)
  = calculate_buyer_breakdown rd price region_pop.
Proof.
  now rewrite calculate_buyer_breakdown_eq, calculate_buyer_breakdown2_eq.
Qed.

(** X15.  Among positive prices on one side of 1,500,000 and with a positive
    population, a dearer home has strictly fewer buyers in total. *)
Theorem total_decreasing_within_tiers
    (rd : region) (p1 p2 : R) (region_pop : Z) :
  0 < p1 -> p1 < p2 -> p2 <= 1500000 \/ 1500000 < p1 ->
  (0 < region_pop)%Z ->
  exists total1 total2 : R,
    total_of (calculate_buyer_breakdown rd p1 region_pop) = Some total1 /\
    total_of (calculate_buyer_breakdown rd p2 region_pop) = Some total2 /\
    total2 < total1.
Proof.
  intros Hp Hlt Htier Hpop. eexists _, _.
  split; [apply total_of_breakdown|].
  split; [apply total_of_breakdown|].
  apply household_count_strict; try assumption.
  now apply loan_increasing_within_tiers.
Qed.

Lemma breakdown_history_segments_witness :
  exists (buyers : gmap string R) (income down single repeat_ : R),
    calculate_buyer_breakdown
      {| rate := 0.045; pop := 20000000 |} 800000 20000000
    = Some (buyers, income, down) /\
    buyers !! "Single" = Some single /\
    buyers !! "Repeat" = Some repeat_ /\
    repeat_ = 1.375 * single.
Proof.
  destruct (breakdown_history_segments
              {| rate := 0.045; pop := 20000000 |} 800000 20000000
              ltac:(lra) ltac:(lia))
    as (buyers & income & down & single & ft & rp
        & Hres & Hs & _ & Hr & Heq & _).
  exists buyers, income, down, single, rp. auto.
Defined.

Lemma total_decreasing_within_tiers_witness :
  exists total1 total2 : R,
    total_of (calculate_buyer_breakdown
                {| rate := 0.045; pop := 20000000 |} 800000 20000000)
    = Some total1 /\
    total_of (calculate_buyer_breakdown
                {| rate := 0.045; pop := 20000000 |} 1000000 20000000)
    = Some total2 /\
    total2 < total1.
Proof.
  apply (total_decreasing_within_tiers
           {| rate := 0.045; pop := 20000000 |} 800000 1000000 20000000);
    [lra | lra | left; lra | lia].
Defined.

(** ** More on the comparison *)
Lemma abs_diff_swap (a b : Z) : Z.abs (a - b) = Z.abs (b - a).
Proof. lia. Qed.

(** X16.  Entering the two prices the other way round names the other
    property as the winner, with the same margin and the same total beside
    it; only an exact tie names Property 2 both ways. *)
Theorem compare_properties_swapped (rd : region) (price1 price2 : Z) :
  (forall margin other : R,
     compare_properties rd price1 price2 = Some (Property1Wins margin other) ->
     compare_properties rd price2 price1 = Some (Property2Wins margin other)) /\
  (forall margin other : R,
     compare_properties rd price1 price2 = Some (Property2Wins margin other) ->
     margin <> 0 ->
     compare_properties rd price2 price1 = Some (Property1Wins margin other)) /\
  (forall other : R,
     compare_properties rd price1 price2 = Some (Property2Wins 0 other) ->
     compare_properties rd price2 price1 = Some (Property2Wins 0 other)) /\
  (compare_properties rd price1 price2 = Some EqualPricing ->
   compare_properties rd price2 price1 = Some EqualPricing).
Proof.
  rewrite !compare_properties_eq. cbv zeta.
  rewrite (abs_diff_swap price2 price1).
  set (t1 := household_count (IZR price1) (rate rd) (pop rd)).
  set (t2 := household_count (IZR price2) (rate rd) (pop rd)).
  destruct (Z_gt_dec (Z.abs (price1 - price2)) 50000) as [Hfar | Hnear];
    [| repeat split; intros; try discriminate; reflexivity].
  destruct (Rgt_dec (t1 - t2) 0) as [H12 | H12].
  - destruct (Rgt_dec (t2 - t1) 0) as [H21 | _]; [lra|].
    split; [| repeat split; intros; discriminate].
    intros margin other H. inversion H; subst.
    rewrite (Rabs_left (t2 - t1)) by lra. do 2 f_equal. lra.
  - destruct (Rgt_dec (t2 - t1) 0) as [H21 | H21].
    + split; [intros; discriminate|].
      split; [| split; [| intros; discriminate]].
      * intros margin other H _. inversion H; subst.
        rewrite (Rabs_left (t1 - t2)) by lra. do 2 f_equal. lra.
      * intros other H. inversion H as [[Habs Hother]].
        rewrite (Rabs_left (t1 - t2)) in Habs by lra. lra.
    + assert (Heq : t1 = t2) by lra.
      split; [intros; discriminate|].
      split; [| split; [| intros; discriminate]].
      * intros margin other H Hne. inversion H as [[Habs Hother]].
        exfalso. apply Hne. rewrite <- Habs, Heq, Rminus_diag. apply Rabs_R0.
      * intros other H. inversion H as [[Habs Hother]].
        rewrite Heq, Rminus_diag, Rabs_R0. reflexivity.
Qed.

(** X17.  For two positive prices more than 50,000 apart and a positive
    population, the property with the smaller loan wins by a positive
    margin, whichever is dearer; equal loans name Property 2 with margin
    0. *)
Theorem smaller_loan_wins (rd : region) (price1 price2 : Z) :
  (0 < price1)%Z -> (0 < price2)%Z ->
  (Z.abs (price1 - price2) > 50000)%Z -> (0 < pop rd)%Z ->
  let loan1 := IZR price1 - calculate_down_payment (IZR price1) in
  let loan2 := IZR price2 - calculate_down_payment (IZR price2) in
  (loan1 < loan2 ->
   exists margin other : R,
     compare_properties rd price1 price2 = Some (Property1Wins margin other)
     /\ 0 < margin) /\
  (loan2 < loan1 ->
   exists margin other : R,
     compare_properties rd price1 price2 = Some (Property2Wins margin other)
     /\ 0 < margin) /\
  (loan1 = loan2 ->
   exists other : R,
     compare_properties rd price1 price2 = Some (Property2Wins 0 other)).
Proof.
  intros Hp1 Hp2 Hfar Hpop loan1 loan2.
  apply IZR_lt in Hp1. apply IZR_lt in Hp2.
  rewrite compare_properties_eq. cbv zeta.
  destruct (Z_gt_dec (Z.abs (price1 - price2)) 50000) as [_ | Hn]; [| lia].
  set (t1 := household_count (IZR price1) (rate rd) (pop rd)).
  set (t2 := household_count (IZR price2) (rate rd) (pop rd)).
  split; [| split].
  - intros Hloan.
    assert (Ht : t2 < t1) by now apply household_count_strict.
    destruct (Rgt_dec (t1 - t2) 0) as [_ | Hle]; [| lra].
    eexists _, _. split; [reflexivity | lra].
  - intros Hloan.
    assert (Ht : t1 < t2) by now apply household_count_strict.
    destruct (Rgt_dec (t1 - t2) 0) as [Hgt | _]; [lra|].
    eexists _, _. split; [reflexivity|].
    rewrite Rabs_left by lra. lra.
  - intros Hloan.
    assert (Ht : t1 = t2) by now apply household_count_loan.
    destruct (Rgt_dec (t1 - t2) 0) as [Hgt | _]; [lra|].
    eexists. rewrite Ht, Rminus_diag, Rabs_R0. reflexivity.
Qed.

(** A 1,600,000 home beats a 1,500,000 home. *)
Lemma smaller_loan_wins_witness :
  exists margin other : R,
    compare_properties {| rate := 0.045; pop := 20000000 |} 1500000 1600000
    = Some (Property2Wins margin other) /\ 0 < margin.
Proof.
  apply (proj1 (proj2 (smaller_loan_wins
                         {| rate := 0.045; pop := 20000000 |}
                         1500000 1600000
                         ltac:(lia) ltac:(lia) ltac:(lia)
                         ltac:(simpl; lia)))).
  pose proof (loan_mid 1500000 ltac:(lra)) as H1.
  pose proof (loan_high 1600000 ltac:(lra)) as H2.
  unfold loan in H1, H2. lra.
Defined.

(** ** More on the map tools *)
Lemma selection_factor_pos (l1 l2 bt : string) (inc : R) :
  0 < (selection l1 l2 bt inc).2.
Proof. unfold selection. repeat case_decide; simpl; lra. Qed.

Lemma analyze_with_full
    (total_label city : string) (entry : App4.city_data)
    (radius_km price : Z) (buyer_type : string) :
  App4.CITIES !! city = Some entry ->
  (0 < radius_km)%Z ->
  let sel := selection total_label "Couples (60%)" buyer_type
               (income_at (IZR price) (App4.rate entry) 25) in
  App4.analyze_with total_label city radius_km price buyer_type
  = Some {| App4.income_needed := sel.1;
            App4.down_payment := App4.calculate_down_payment (IZR price);
            App4.pop_factor := sel.2;
            App4.prob_affordable := survival sel.1;
            App4.base_pop := power_law (App4.pop entry) radius_km;
            App4.buyers_in_radius :=
              survival sel.1 * power_law (App4.pop entry) radius_km * sel.2 |}.
Proof.
  intros Hcity Hr sel. unfold App4.analyze_with.
  rewrite Hcity. cbn [mbind option_bind].
  rewrite calc_income_needed_eq. cbn [mbind option_bind].
  rewrite (float_pow_pos _ _ (radius_ratio_pos _ Hr)).
  unfold sel, selection.
  repeat case_decide; cbn [mbind option_bind]; reflexivity.
Qed.

Lemma analyze3_full
    (city : string) (entry : App3.city_data)
    (radius_km price : Z) (household_type : string) :
  App3.CANADIAN_CITIES !! city = Some entry ->
  (0 < radius_km)%Z ->
  let sel := selection "Total Market" "Couples Only (60%)" household_type
               (income_at (IZR price) App3.rate_default 25) in
  App3.analyze city radius_km price household_type
  = Some {| App3.income_final := sel.1;
            App3.down_payment := calculate_down_payment (IZR price);
            App3.pop_mult := sel.2;
            App3.prob_affordable := survival sel.1;
            App3.base_pop := power_law (App3.pop entry) radius_km;
            App3.potential_buyers :=
              survival sel.1 * power_law (App3.pop entry) radius_km * sel.2 |}.
Proof.
  intros Hcity Hr sel. unfold App3.analyze.
  rewrite calc_stress_test_payment3_eq. cbn [mbind option_bind].
  rewrite Hcity, (float_pow_pos _ _ (radius_ratio_pos _ Hr)).
  unfold sel, selection.
  repeat case_decide; cbn [mbind option_bind]; reflexivity.
Qed.

Lemma Rpower_base_strict (x y e : R) :
  0 < x -> x < y -> 0 < e -> Rpower x e < Rpower y e.
Proof.
  intros Hx Hxy He. unfold Rpower. apply exp_increasing.
  apply Rmult_lt_compat_l; [assumption|]. now apply ln_increasing.
Qed.

Lemma power_law_strict (population r1 r2 : Z) :
  (0 < population)%Z -> (0 < r1)%Z -> (r1 < r2)%Z ->
  power_law population r1 < power_law population r2.
Proof.
  intros Hpop Hr1 Hr. unfold power_law.
  apply IZR_lt in Hpop. apply Rmult_lt_compat_l; [assumption|].
  apply Rpower_base_strict; [now apply radius_ratio_pos | | lra].
  apply IZR_lt in Hr. lra.
Qed.

Lemma power_law_at_50 (population : Z) :
  power_law population 50 = IZR population.
Proof.
  unfold power_law. replace (IZR 50 / 50) with 1 by lra.
  unfold Rpower. rewrite ln_1, Rmult_0_r, exp_0. lra.
Qed.

Lemma radius_scale (radius_km : Z) :
  (0 <= radius_km)%Z ->
  Py.float_pow (IZR radius_km / 50) 0.7 =
  if Z.eq_dec radius_km 0%Z then Some 0
  else Some (Rpower (IZR radius_km / 50) 0.7).
Proof.
  intros Hnn. destruct (Z.eq_dec radius_km 0%Z) as [-> | Hne].
  - unfold Py.float_pow.
    destruct (Rlt_dec 0 (0 / 50)) as [H | _]; [lra|].
    destruct (Req_dec_T (0 / 50) 0) as [_ | H]; [| lra].
    destruct (Rlt_dec 0 0.7) as [_ | H]; [reflexivity | lra].
  - apply float_pow_pos, radius_ratio_pos. lia.
Qed.



Lemma power_law_zero (population : Z) :
  IZR population * 0 = 0.
Proof. lra. Qed.

Lemma analyze_with_zero
    (total_label city : string) (entry : App4.city_data)
    (price : Z) (buyer_type : string) :
  App4.CITIES !! city = Some entry ->
  let sel := selection total_label "Couples (60%)" buyer_type
               (income_at (IZR price) (App4.rate entry) 25) in
  App4.analyze_with total_label city 0 price buyer_type
  = Some {| App4.income_needed := sel.1;
            App4.down_payment := App4.calculate_down_payment (IZR price);
            App4.pop_factor := sel.2;
            App4.prob_affordable := survival sel.1;
            App4.base_pop := IZR (App4.pop entry) * 0;
            App4.buyers_in_radius :=
              survival sel.1 * (IZR (App4.pop entry) * 0) * sel.2 |}.
Proof.
  intros Hcity sel. unfold App4.analyze_with.
  rewrite Hcity. cbn [mbind option_bind].
  rewrite calc_income_needed_eq. cbn [mbind option_bind].
  rewrite radius_scale by lia. simpl.
  unfold sel, selection.
  repeat case_decide; cbn [mbind option_bind]; reflexivity.
Qed.

(** X19.  In app4.py and app5.py, for a city of the table, a larger radius
    leaves the affordable share unchanged and strictly raises the radius
    population and the buyers; a radius of 0 gives no buyers, 50 km gives
    exactly the city's population, and less than 50 km gives less. *)
Theorem buyers_grow_with_radius
    (total_label city : string) (entry : App4.city_data)
    (r1 r2 price : Z) (buyer_type : string) :
  App4.CITIES !! city = Some entry ->
  (0 <= r1)%Z -> (r1 < r2)%Z ->
  exists a1 a2 : App4.analysis,
    App4.analyze_with total_label city r1 price buyer_type = Some a1 /\
    App4.analyze_with total_label city r2 price buyer_type = Some a2 /\
    App4.prob_affordable a1 = App4.prob_affordable a2 /\
    App4.base_pop a1 < App4.base_pop a2 /\
    App4.buyers_in_radius a1 < App4.buyers_in_radius a2 /\
    (r1 = 0%Z -> App4.buyers_in_radius a1 = 0) /\
    (r2 = 50%Z -> App4.base_pop a2 = IZR (App4.pop entry)) /\
    ((r2 < 50)%Z -> App4.base_pop a2 < IZR (App4.pop entry)).
Proof.
  intros Hcity Hr1 Hr.
  pose proof (cities_populated city entry Hcity) as Hpop.
  pose proof (analyze_with_full total_label city entry r2 price buyer_type
                Hcity ltac:(lia)) as H2.
  cbv zeta in H2.
  set (sel := selection total_label "Couples (60%)" buyer_type
                (income_at (IZR price) (App4.rate entry) 25)) in *.
  pose proof (survival_range sel.1) as [Hs _].
  pose proof (selection_factor_pos total_label "Couples (60%)" buyer_type
                (income_at (IZR price) (App4.rate entry) 25)) as Hf.
  fold sel in Hf.
  assert (Hbase2 : 0 < power_law (App4.pop entry) r2).
  { unfold power_law. apply Rmult_lt_0_compat; [now apply IZR_lt|].
    unfold Rpower. apply exp_pos. }
  assert (Hsf : 0 < survival sel.1 * sel.2) by now apply Rmult_lt_0_compat.
  assert (Hedge :
    (r2 = 50%Z -> power_law (App4.pop entry) r2 = IZR (App4.pop entry)) /\
    ((r2 < 50)%Z -> power_law (App4.pop entry) r2 < IZR (App4.pop entry))).
  { split.
    - intros ->. apply power_law_at_50.
    - intros Hlt. rewrite <- (power_law_at_50 (App4.pop entry)).
      apply power_law_strict; [assumption | lia | assumption]. }
  destruct Hedge as [H50 Hbelow].
  destruct (Z.eq_dec r1 0%Z) as [-> | Hpos].
  - pose proof (analyze_with_zero total_label city entry price buyer_type
                  Hcity) as H1.
    cbv zeta in H1. fold sel in H1.
    eexists _, _. split; [exact H1|]. split; [exact H2|].
    cbn [App4.prob_affordable App4.base_pop App4.buyers_in_radius].
    rewrite power_law_zero.
    repeat split; try assumption; try reflexivity; try lra; try nra.
  - pose proof (analyze_with_full total_label city entry r1 price buyer_type
                  Hcity ltac:(lia)) as H1.
    cbv zeta in H1. fold sel in H1.
    pose proof (power_law_strict (App4.pop entry) r1 r2 Hpop ltac:(lia) Hr)
      as Hgrow.
    eexists _, _. split; [exact H1|]. split; [exact H2|].
    cbn [App4.prob_affordable App4.base_pop App4.buyers_in_radius].
    repeat split; try assumption; try reflexivity; try lia; nra.
Qed.

Lemma buyers_grow_with_radius_witness :
  exists a1 a2 : App4.analysis,
    App4.analyze "Toronto" 25 800000 "Total Market" = Some a1 /\
    App4.analyze "Toronto" 50 800000 "Total Market" = Some a2 /\
    App4.buyers_in_radius a1 < App4.buyers_in_radius a2 /\
    App4.base_pop a2 = 6400000.
Proof.
  destruct (buyers_grow_with_radius "Total Market" "Toronto"
              {| App4.lat := 43.65; App4.lon := -79.38;
                 App4.pop := 6400000; App4.rate := 0.047 |}
              25 50 800000 "Total Market" eq_refl ltac:(lia) ltac:(lia))
    as (a1 & a2 & H1 & H2 & _ & _ & Hb & _ & H50 & _).
  exists a1, a2. repeat split; [exact H1 | exact H2 | exact Hb |].
  apply H50. reflexivity.
Defined.

(** *** The neighborhood table of app3.py *)
Lemma analyze3_buyers (city : string) (radius_km price : Z)
    (household_type : string) (a : App3.analysis) :
  App3.analyze city radius_km price household_type = Some a ->
  App3.potential_buyers a
  = App3.prob_affordable a * App3.base_pop a * App3.pop_mult a.
Proof.
  unfold App3.analyze.
  destruct (App3.calc_stress_test_payment _ _) as [[inc dp] |];
    cbn [mbind option_bind]; [| discriminate].
  destruct (App3.CANADIAN_CITIES !! city) as [entry |];
    destruct (Py.float_pow _ _) as [scale |];
    repeat case_decide; cbn [mbind option_bind]; intros Hrun;
    try discriminate; inversion Hrun; reflexivity.
Qed.

(** X20.  The neighborhood table has the rows Downtown, Suburbs and Outer
    Ring; their populations add up to the radius population and their
    buyers to the page's potential buyers. *)
Theorem neighborhoods_partition_the_radius
    (city : string) (radius_km price : Z) (household_type : string)
    (a : App3.analysis) :
  App3.analyze city radius_km price household_type = Some a ->
  map (fun row : string * R * R => row.1.1) (App3.neighborhood_data a)
  = ["Downtown"; "Suburbs"; "Outer Ring"] /\
  column_sum (map (fun row : string * R * R => row.1.2)
                (App3.neighborhood_data a))
  = App3.base_pop a /\
  column_sum (map (fun row : string * R * R => row.2)
                (App3.neighborhood_data a))
  = App3.potential_buyers a.
Proof.
  intros Hrun. rewrite (analyze3_buyers _ _ _ _ _ Hrun).
  unfold App3.neighborhood_data, App3.neighborhoods, column_sum.
  cbn [map fold_right fst snd].
  repeat case_decide; try discriminate; try congruence.
  repeat split; lra.
Qed.

Lemma neighborhoods_partition_the_radius_witness :
  exists a : App3.analysis,
    App3.analyze "Toronto" 25 800000 "Total Market" = Some a /\
    column_sum (map (fun row : string * R * R => row.2)
                  (App3.neighborhood_data a))
    = App3.potential_buyers a.
Proof.
  pose proof (analyze3_full "Toronto"
                {| App3.lat := 43.6532; App3.lon := -79.3832;
                   App3.pop := 6400000 |}
                25 800000 "Total Market" eq_refl ltac:(lia)) as Hrun.
  cbv zeta in Hrun. eexists. split; [exact Hrun|].
  apply (neighborhoods_partition_the_radius _ _ _ _ _ Hrun).
Defined.

(** *** The city comparison of app4.py and app5.py *)
Lemma comparison_buyers_eq
    (radius_km price : Z) (pop_factor : R) (data : App4.city_data) :
  (0 < radius_km)%Z ->
  App4.comparison_buyers radius_km price pop_factor data
  = Some (survival (income_at (IZR price) (App4.rate data) 25)
          * IZR (App4.pop data) * Rpower (IZR radius_km / 50) 0.7
          * pop_factor).
Proof.
  intros Hr. unfold App4.comparison_buyers.
  rewrite calc_income_needed_eq. cbn [mbind option_bind].
  rewrite (float_pow_pos _ _ (radius_ratio_pos _ Hr)). reflexivity.
Qed.

Lemma comparison_eq (radius_km price : Z) (pop_factor : R) :
  (0 < radius_km)%Z ->
  App4.comparison radius_km price pop_factor
  = Some (map (comparison_row radius_km price pop_factor) App4.CITIES_items).
Proof.
  intros Hr. unfold App4.comparison.
  induction App4.CITIES_items as [| item items IH]; [reflexivity|].
  cbn [mapM map]. rewrite comparison_buyers_eq by assumption.
  cbn [mbind option_bind]. rewrite IH. reflexivity.
Qed.

Lemma cities_items_complete (city : string) (entry : App4.city_data) :
  App4.CITIES !! city = Some entry -> In (city, entry) App4.CITIES_items.
Proof.
  unfold App4.CITIES, App4.CITIES_items. intros H.
  repeat (rewrite lookup_insert in H; case_decide;
          [inversion H; subst; simpl; tauto|]).
  rewrite lookup_empty in H. discriminate H.
Qed.

Lemma cities_items_table : list_to_map App4.CITIES_items = App4.CITIES.
Proof. reflexivity. Qed.

Lemma selection_cases (l1 l2 bt : string) (inc : R) :
  (selection l1 l2 bt inc = (inc * 0.75, 0.60)) \/
  ((selection l1 l2 bt inc).1 = inc /\ (selection l1 l2 bt inc).2 <> 0.60).
Proof.
  unfold selection.
  repeat case_decide; [right | left | right]; try reflexivity;
    simpl; split; try reflexivity; lra.
Qed.

(** X21.  The comparison has one row per city, in table order.  The row of
    the selected city shows the page's own buyer figure unless couples are
    selected: the loop applies the couples' population factor but not
    their 0.75 income factor, so its figure is then strictly smaller. *)
Theorem comparison_row_against_headline
    (total_label city : string) (entry : App4.city_data)
    (radius_km price : Z) (buyer_type : string) :
  App4.CITIES !! city = Some entry ->
  (0 < radius_km)%Z -> (0 < price)%Z ->
  exists (a : App4.analysis) (rows : list (string * Z * R)) (row_buyers : R),
    App4.analyze_with total_label city radius_km price buyer_type = Some a /\
    App4.comparison radius_km price (App4.pop_factor a) = Some rows /\
    map (fun row : string * Z * R => row.1.1) rows
    = ["Toronto"; "Vancouver"; "Montreal"; "Calgary"; "Edmonton"] /\
    In (city, App4.pop entry, row_buyers) rows /\
    (App4.pop_factor a <> 0.60 -> row_buyers = App4.buyers_in_radius a) /\
    (App4.pop_factor a = 0.60 -> row_buyers < App4.buyers_in_radius a).
Proof.
  intros Hcity Hr Hp.
  pose proof (analyze_with_full total_label city entry radius_km price
                buyer_type Hcity Hr) as Hrun.
  cbv zeta in Hrun.
  set (inc := income_at (IZR price) (App4.rate entry) 25) in *.
  set (sel := selection total_label "Couples (60%)" buyer_type inc) in *.
  eexists _, _, _. split; [exact Hrun|].
  cbn [App4.pop_factor App4.buyers_in_radius].
  split; [now apply comparison_eq|].
  split; [reflexivity|].
  split.
  { apply (in_map (comparison_row radius_km price sel.2) _ (city, entry)).
    now apply cities_items_complete. }
  cbn [fst snd]. fold inc. unfold power_law.
  pose proof (cities_populated city entry Hcity) as Hpop.
  apply IZR_lt in Hpop. apply IZR_lt in Hp.
  assert (Hscale : 0 < Rpower (IZR radius_km / 50) 0.7)
    by (unfold Rpower; apply exp_pos).
  subst sel.
  destruct (selection_cases total_label "Couples (60%)" buyer_type inc)
    as [Hcouple | [Hsame Hfactor]].
  - split; [intros Hne; rewrite Hcouple in Hne; simpl in Hne; lra|].
    intros _. rewrite Hcouple. cbn [fst snd].
    assert (Hinc : 0 < inc) by (apply income_at_pos; [assumption | lia]).
    assert (Hs : survival inc < survival (inc * 0.75))
      by (apply survival_strict; lra).
    assert (0 < IZR (App4.pop entry) * Rpower (IZR radius_km / 50) 0.7)
      by now apply Rmult_lt_0_compat.
    nra.
  - split; [| intros Heq; contradiction].
    intros _. rewrite Hsame. ring.
Qed.

Lemma comparison_row_against_headline_witness :
  exists (a : App4.analysis) (rows : list (string * Z * R)) (row_buyers : R),
    App4.analyze "Toronto" 25 800000 "Couples (60%)" = Some a /\
    App4.comparison 25 800000 (App4.pop_factor a) = Some rows /\
    In ("Toronto", 6400000%Z, row_buyers) rows /\
    row_buyers < App4.buyers_in_radius a.
Proof.
  destruct (comparison_row_against_headline "Total Market" "Toronto"
              {| App4.lat := 43.65; App4.lon := -79.38;
                 App4.pop := 6400000; App4.rate := 0.047 |}
              25 800000 "Couples (60%)" eq_refl ltac:(lia) ltac:(lia))
    as (a & rows & b & Hrun & Hrows & _ & Hin & _ & Hlt).
  exists a, rows, b. repeat split; [exact Hrun | exact Hrows | exact Hin |].
  apply Hlt.
  pose proof (analyze_with_full "Total Market" "Toronto"
                {| App4.lat := 43.65; App4.lon := -79.38;
                   App4.pop := 6400000; App4.rate := 0.047 |}
                25 800000 "Couples (60%)" eq_refl ltac:(lia)) as Hfull.
  cbv zeta in Hfull. unfold App4.analyze in Hrun.
  rewrite Hfull in Hrun. inversion Hrun. reflexivity.
Defined.

(** *** The breakdown table of app4.py *)

(** X22.  The first-time and repeat rows add up to the affordable share
    times the radius population (the page's figure when "Total Market" is
    selected).  With couples selected the singles row is computed from the
    couples' share: it is 0.40/0.60 of the couples row, which is the page's
    figure; otherwise it is at most that. *)
Theorem breakdown_table_rows
    (city : string) (entry : App4.city_data)
    (radius_km price : Z) (buyer_type : string) :
  App4.CITIES !! city = Some entry ->
  (0 < radius_km)%Z -> (0 <= price)%Z ->
  exists (a : App4.analysis) (singles couples first_time repeat_ : R),
    App4.analyze city radius_km price buyer_type = Some a /\
    App4.breakdown_table city radius_km price buyer_type
    = Some [ ("Singles (40%)", singles); ("Couples (60%)", couples);
             ("First-Time (45%)", first_time);
             ("Repeat Buyers (55%)", repeat_) ] /\
    first_time + repeat_ = App4.prob_affordable a * App4.base_pop a /\
    (buyer_type = "Total Market" ->
     first_time + repeat_ = App4.buyers_in_radius a) /\
    (buyer_type = "Couples (60%)" ->
     couples = App4.buyers_in_radius a /\ singles * 0.60 = couples * 0.40) /\
    (buyer_type <> "Couples (60%)" -> singles * 0.60 <= couples * 0.40).
Proof.
  intros Hcity Hr Hp.
  pose proof (analyze_with_full "Total Market" city entry radius_km price
                buyer_type Hcity Hr) as Hrun.
  cbv zeta in Hrun. fold App4.analyze in Hrun.
  set (inc := income_at (IZR price) (App4.rate entry) 25) in *.
  eexists _, _, _, _, _. split; [exact Hrun|].
  split.
  { unfold App4.breakdown_table. rewrite Hcity. cbn [mbind option_bind].
    rewrite calc_income_needed_eq. cbn [mbind option_bind].
    rewrite Hrun. cbn [mbind option_bind]. unfold App4.buyer_breakdown.
    cbn [App4.prob_affordable App4.base_pop]. fold inc. reflexivity. }
  cbn [App4.prob_affordable App4.base_pop App4.buyers_in_radius].
  pose proof (cities_populated city entry Hcity) as Hpop.
  assert (Hbase : 0 < power_law (App4.pop entry) radius_km).
  { unfold power_law. apply Rmult_lt_0_compat; [now apply IZR_lt|].
    unfold Rpower. apply exp_pos. }
  assert (Hinc : 0 <= inc).
  { apply income_at_nonneg; [now apply IZR_le | lia]. }
  pose proof (proj1 (survival_range (inc * 0.75))) as Hpos.
  assert (Hunclamped : 1 - lognorm_cdf (inc * 0.75) = survival (inc * 0.75)).
  { unfold survival. pose proof (lognorm_cdf_range (inc * 0.75)).
    rewrite Rmax_right; lra. }
  rewrite Hunclamped.
  split; [lra|].
  unfold selection. repeat split.
  - intros ->. repeat case_decide; try congruence. cbn [fst snd]. lra.
  - subst buyer_type. repeat case_decide; try discriminate; try congruence.
    cbn [fst snd]. reflexivity.
  - subst buyer_type. repeat case_decide; try discriminate; try congruence.
    cbn [fst snd]. lra.
  - intros Hne. 
    assert (Hs : survival inc <= survival (inc * 0.75))
      by (apply survival_antitone; lra).
    repeat case_decide; try congruence; cbn [fst snd]; nra.
Qed.

(** X23.  app4.py and app5.py compute the same page for every buyer type
    other than their labels for all buyers; the label ["Total"] of app5.py
    means singles (factor 0.40) to app4.py. *)
Theorem map_scripts_agree_off_total_labels
    (city : string) (radius_km price : Z) (buyer_type : string) :
  (buyer_type <> "Total" -> buyer_type <> "Total Market" ->
   App5.analyze city radius_km price buyer_type
   = App4.analyze city radius_km price buyer_type) /\
  (forall entry : App4.city_data,
     App4.CITIES !! city = Some entry -> (0 < radius_km)%Z ->
     exists a4 a5 : App4.analysis,
       App4.analyze city radius_km price "Total" = Some a4 /\
       App5.analyze city radius_km price "Total" = Some a5 /\
       App4.pop_factor a4 = 0.40 /\ App4.pop_factor a5 = 1.0 /\
       App4.buyers_in_radius a4 = 0.40 * App4.buyers_in_radius a5).
Proof.
  split.
  - intros H5 H4. unfold App5.analyze, App4.analyze, App4.analyze_with.
    repeat case_decide; try congruence; reflexivity.
  - intros entry Hcity Hr.
    pose proof (analyze_with_full "Total Market" city entry radius_km price
                  "Total" Hcity Hr) as H4.
    pose proof (analyze_with_full "Total" city entry radius_km price
                  "Total" Hcity Hr) as H5.
    cbv zeta in H4, H5. unfold selection in H4, H5.
    repeat case_decide; try discriminate; try congruence.
    cbn [fst snd] in H4, H5.
    eexists _, _. split; [exact H4|]. split; [exact H5|].
    cbn [App4.pop_factor App4.buyers_in_radius].
    repeat split; lra.
Qed.

(** ** The stress rate on binary64 *)
Lemma float_lt_le (x y : float) : (x <? y)%float = true -> (x <=? y)%float = true.
Proof.
  rewrite FloatAxioms.ltb_spec, FloatAxioms.leb_spec.
  unfold SpecFloat.SFltb, SpecFloat.SFleb.
  destruct (SpecFloat.SFcompare _ _) as [[| |] |]; congruence.
Qed.

Lemma spec_lt_not_nan (a b : SpecFloat.spec_float) :
  SpecFloat.SFltb a b = true -> SpecFloat.SFeqb b b = true.
Proof.
  unfold SpecFloat.SFltb, SpecFloat.SFeqb.
  destruct b as [s | s | | s m e]; destruct a as [s' | s' | | s' m' e'];
    simpl; try congruence; try (destruct s; congruence).
  all: intros _; rewrite Z.compare_refl, Pos.compare_cont_refl;
    destruct s; reflexivity.
Qed.

(** X24.  On binary64 the stress rate is at least 0.0525 and is never NaN,
    for every float contract rate, NaN and the infinities included:
    Python's [max] keeps 0.0525 when the comparison with NaN fails. *)
Theorem binary64_stress_rate_at_least_floor (contract_rate : float) :
  (0.0525 <=? Binary64.stress_rate contract_rate)%float = true /\
  PrimFloat.is_nan (Binary64.stress_rate contract_rate) = false.
Proof.
  unfold Binary64.stress_rate. cbv zeta.
  destruct (0.0525 <? contract_rate + 0.02)%float eqn:Hlt.
  - split; [now apply float_lt_le|].
    unfold PrimFloat.is_nan.
    rewrite FloatAxioms.ltb_spec in Hlt. apply spec_lt_not_nan in Hlt.
    rewrite <- FloatAxioms.eqb_spec in Hlt. now rewrite Hlt.
  - split; vm_compute; reflexivity.
Qed.

Lemma breakdown_table_rows_witness :
  exists (a : App4.analysis) (singles couples first_time repeat_ : R),
    App4.analyze "Toronto" 25 800000 "Couples (60%)" = Some a /\
    App4.breakdown_table "Toronto" 25 800000 "Couples (60%)"
    = Some [ ("Singles (40%)", singles); ("Couples (60%)", couples);
             ("First-Time (45%)", first_time);
             ("Repeat Buyers (55%)", repeat_) ] /\
    couples = App4.buyers_in_radius a /\ singles * 0.60 = couples * 0.40.
Proof.
  destruct (breakdown_table_rows "Toronto"
              {| App4.lat := 43.65; App4.lon := -79.38;
                 App4.pop := 6400000; App4.rate := 0.047 |}
              25 800000 "Couples (60%)" eq_refl ltac:(lia) ltac:(lia))
    as (a & s & c & f & r & Hrun & Htable & _ & _ & Hcouples & _).
  exists a, s, c, f, r. split; [exact Hrun|]. split; [exact Htable|].
  apply Hcouples. reflexivity.
Defined.

